(** * GarmentCode: session store, pipeline facade and batch driver

    A shallow embedding of the orchestration code of the repository:
    - [pattern_data_sim.py]: [GarmentTo3DService] and the batch command line
      driver (the [__main__] block) with [gather_renders];
    - [api_garment_3d_service.py]: [GarmentSVGService] and the HTTP
      endpoints;
    - [garment_3d_service.py]: the older HTTP endpoints of the 3D service.

    Python objects are modelled as values ([pyval]), exceptions as an
    inductive type ([exn]), the file system as a finite map from absolute
    component lists to nodes, and effectful code in a state-and-exception
    monad [M] over a [World].  The pattern compiler, the mesh builder, the
    draping simulator, the exporter and the two batch passes are external
    collaborators: functions on the file system that the code is given, whose
    calls are recorded in a trace. *)

From Stdlib Require Import ZArith Ascii String List.
From stdpp Require Import base option list gmap strings fin_maps pretty.

Set Warnings "-register-all".

Local Open Scope string_scope.
Local Open Scope Z_scope.
Local Open Scope list_scope.

(** ** Python values *)

(** Values of [Dict[str, Any]] request fields, of YAML and JSON files.  A
    float is kept as a mantissa and a binary exponent; the code never
    computes with it. *)
Inductive pyval :=
| PNone
| PBool (b : bool)
| PInt (z : Z)
| PFloat (m e : Z)
| PStr (s : string)
| PList (l : list pyval)
| PDict (d : gmap string pyval).

Abbreviation dict := (gmap string pyval).

(** Python truthiness, as used by [if x:] and [not x]. *)
Definition truthy (v : pyval) : bool :=
  match v with
  | PNone => false
  | PBool b => b
  | PInt z => negb (z =? 0)
  | PFloat m _ => negb (m =? 0)
  | PStr s => negb (String.eqb s "")
  | PList l => match l with [] => false | _ => true end
  | PDict d => negb (bool_decide (d = ∅))
  end.

(** Truthiness of an [Optional[Dict]]: [None] and the empty dict are falsy. *)
Definition truthy_opt (o : option dict) : bool :=
  match o with
  | None => false
  | Some d => truthy (PDict d)
  end.

(** ** Paths (pathlib) *)

Record PurePath := MkPath { absolute : bool; parts : list string }.

Fixpoint split_on (sep : ascii) (s : string) : list string :=
  match s with
  | EmptyString => [EmptyString]
  | String c s' =>
      if Ascii.eqb c sep then EmptyString :: split_on sep s'
      else match split_on sep s' with
           | [] => [String c EmptyString]
           | w :: ws => String c w :: ws
           end
  end.

Definition slash : ascii := "/"%char.

Definition is_segment (c : string) : bool :=
  negb (String.eqb c "") && negb (String.eqb c ".").

(** [Path(s)]: empty and ["."] segments are dropped, [".."] is kept; a leading
    slash makes the path absolute. *)
Definition Path (s : string) : PurePath :=
  {| absolute := match s with String c _ => Ascii.eqb c slash | _ => false end;
     parts := List.filter is_segment (split_on slash s) |}.

(** [p / s]: an absolute right operand replaces the left one. *)
Definition join (p : PurePath) (s : string) : PurePath :=
  let q := Path s in
  if absolute q then q
  else {| absolute := absolute p; parts := parts p ++ parts q |}.

Infix "/:" := join (at level 40, left associativity).

(** [p.name] *)
Definition name (p : PurePath) : string := List.last (parts p) "".

(** ** Exceptions *)

Inductive exn :=
| HTTPException (status_code : Z) (detail : text)
| ValueError (msg : text)
| Exception_ (msg : text)
| KeyError (key : string)
| TypeError (msg : text)
| FileNotFoundError (p : PurePath)
| NotADirectoryError (p : PurePath)
| IsADirectoryError (p : PurePath)
| FileExistsError (p : PurePath)
| SameFileError (p : PurePath)
| OSError (p : PurePath)
| Foreign (origin : string)
| SystemExit (code : Z)
with text :=
| Lit (s : string)
| StrOf (e : exn)
| Traceback (e : exn)
| Cat (a b : text).

(** [isinstance(e, Exception)]: [sys.exit] raises [SystemExit], which derives
    from [BaseException] only and passes through [except Exception]. *)
Definition is_Exception (e : exn) : bool :=
  match e with
  | SystemExit _ => false
  | _ => true
  end.

Inductive Res (A : Type) :=
| Ok (a : A)
| Raise (e : exn).
Arguments Ok {A} a.
Arguments Raise {A} e.

(** ** File system *)

Inductive content :=
| Ser (v : pyval)
| Blob (tag : string).

Inductive node :=
| Dir
| File (c : content).

(** Keys are absolute, resolved component lists; [[]] is the root directory,
    which always exists. *)
Abbreviation tree := (gmap (list string) node).

Definition node_at (t : tree) (r : list string) : option node :=
  match r with
  | [] => Some Dir
  | _ => t !! r
  end.

Definition is_dir (t : tree) (r : list string) : bool :=
  match node_at t r with
  | Some Dir => true
  | _ => false
  end.

Definition parent (r : list string) : list string := removelast r.

(** Walk the components from [cur]; every step needs a directory to step
    from, [".."] steps to the parent. *)
Fixpoint walk (t : tree) (cur : list string) (cs : list string) : option (list string) :=
  match cs with
  | [] => Some cur
  | c :: cs' =>
      if is_dir t cur then
        if String.eqb c ".." then walk t (parent cur) cs'
        else walk t (cur ++ [c]) cs'
      else None
  end.

Definition resolve (cwd : list string) (t : tree) (p : PurePath) : option (list string) :=
  walk t (if absolute p then [] else cwd) (parts p).

(** [p.exists()] *)
Definition path_exists (cwd : list string) (t : tree) (p : PurePath) : bool :=
  match resolve cwd t p with
  | Some r => bool_decide (is_Some (node_at t r))
  | None => false
  end.

(** Remove the subtree rooted at [r]. *)
Definition remove_subtree (r : list string) (t : tree) : tree :=
  filter (λ kv, ¬ r `prefix_of` kv.1) t.

(** The entries strictly below [r]. *)
Definition entries_below (r : list string) (t : tree) : tree :=
  filter (λ kv, r `prefix_of` kv.1 ∧ kv.1 ≠ r) t.

(** Remove what is strictly below [r]; [r] itself stays. *)
Definition remove_below (r : list string) (t : tree) : tree :=
  filter (λ kv, ¬ (r `prefix_of` kv.1 ∧ kv.1 ≠ r)) t.

(** [os.rmdir(p)]: of an empty directory that is not the root of the file
    system. *)
Definition rmdir (cwd : list string) (t : tree) (p : PurePath) : Res unit * tree :=
  match resolve cwd t p with
  | Some r =>
      match node_at t r with
      | Some Dir =>
          match r, map_to_list (entries_below r t) with
          | _ :: _, [] => (Ok (), delete r t)
          | _, _ => (Raise (OSError p), t)
          end
      | Some (File _) => (Raise (NotADirectoryError p), t)
      | None => (Raise (FileNotFoundError p), t)
      end
  | None => (Raise (FileNotFoundError p), t)
  end.

(** [shutil.rmtree(p)]: what is below the directory is removed through the
    directory's descriptor; then [os.rmdir(p)] looks the path up again, and
    does not find it when the path went through a directory that is gone by
    then (a path that ends in [".."]). *)
Definition rmtree (cwd : list string) (t : tree) (p : PurePath) : Res unit * tree :=
  match resolve cwd t p with
  | Some r =>
      match node_at t r with
      | Some Dir => rmdir cwd (remove_below r t) p
      | Some (File _) => (Raise (NotADirectoryError p), t)
      | None => (Raise (FileNotFoundError p), t)
      end
  | None => (Raise (FileNotFoundError p), t)
  end.

(** [Path.mkdir(parents=True, exist_ok=True)]: missing directories are created
    along the way; a regular file in the way is an error. *)
Fixpoint mkdir_walk (t : tree) (cur : list string) (cs : list string)
  : option (list string * tree) :=
  match cs with
  | [] => Some (cur, t)
  | c :: cs' =>
      if is_dir t cur then
        if String.eqb c ".." then mkdir_walk t (parent cur) cs'
        else
          match node_at t (cur ++ [c]) with
          | Some Dir => mkdir_walk t (cur ++ [c]) cs'
          | Some (File _) => None
          | None => mkdir_walk (<[cur ++ [c] := Dir]> t) (cur ++ [c]) cs'
          end
      else None
  end.

Definition mkdir_parents (cwd : list string) (t : tree) (p : PurePath) : Res unit * tree :=
  match mkdir_walk t (if absolute p then [] else cwd) (parts p) with
  | Some (_, t') => (Ok (), t')
  | None => (Raise (FileExistsError p), t)
  end.

(** [Path.mkdir(exist_ok=True)]: the parent has to be there. *)
Definition mkdir_exist_ok (cwd : list string) (t : tree) (p : PurePath) : Res unit * tree :=
  match resolve cwd t p with
  | Some r =>
      match node_at t r with
      | Some Dir => (Ok (), t)
      | Some (File _) => (Raise (FileExistsError p), t)
      | None => (Ok (), <[r := Dir]> t)
      end
  | None => (Raise (FileNotFoundError p), t)
  end.

(** [open(p, 'w')] followed by a dump of [c]. *)
Definition write_file (cwd : list string) (t : tree) (p : PurePath) (c : content)
  : Res unit * tree :=
  match resolve cwd t p with
  | Some r =>
      match node_at t r with
      | Some Dir => (Raise (IsADirectoryError p), t)
      | _ => (Ok (), <[r := File c]> t)
      end
  | None => (Raise (FileNotFoundError p), t)
  end.

(** [open(p, 'r')] followed by a read. *)
Definition read_file (cwd : list string) (t : tree) (p : PurePath) : Res content :=
  match resolve cwd t p with
  | Some r =>
      match node_at t r with
      | Some (File c) => Ok c
      | Some Dir => Raise (IsADirectoryError p)
      | None => Raise (FileNotFoundError p)
      end
  | None => Raise (FileNotFoundError p)
  end.

Definition same_file (cwd : list string) (t : tree) (p q : PurePath) : bool :=
  match resolve cwd t p, resolve cwd t q with
  | Some r, Some r' => bool_decide (r = r') && bool_decide (is_Some (node_at t r))
  | _, _ => false
  end.

(** [shutil.copy(src, dst)]: into [dst] when it is a directory. *)
Definition copy (cwd : list string) (t : tree) (src dst : PurePath) : Res unit * tree :=
  let dst' :=
    match resolve cwd t dst with
    | Some r => if is_dir t r then dst /: name src else dst
    | None => dst
    end in
  if same_file cwd t src dst' then (Raise (SameFileError src), t)
  else
    match read_file cwd t src with
    | Ok c => write_file cwd t dst' c
    | Raise e => (Raise e, t)
    end.

(** *** Name patterns of [glob] *)

Definition ends_with (suf s : string) : bool :=
  let n := String.length s in
  let m := String.length suf in
  (m <=? n)%nat && String.eqb (substring (n - m) m s) suf.

Fixpoint starts_with (pre s : string) : bool :=
  match pre, s with
  | EmptyString, _ => true
  | String a pre', String b s' => Ascii.eqb a b && starts_with pre' s'
  | String _ _, EmptyString => false
  end.

(** [sub in s] *)
Fixpoint contains (sub s : string) : bool :=
  starts_with sub s ||
  match s with
  | EmptyString => false
  | String _ s' => contains sub s'
  end.

(** The pattern [*render*.png] *)
Definition match_render_png (s : string) : bool :=
  ends_with ".png" s && contains "render" (substring 0 (String.length s - 4) s).

(** [p.rglob(pat)], also [p.glob('**/' + pat)]: the entries strictly below the
    directory [p] whose name satisfies [pat], as paths below [p].  A path that
    is not a directory has no matches.  The order is that of the map. *)
Definition rglob (cwd : list string) (t : tree) (p : PurePath) (pat : string → bool)
  : list PurePath :=
  match resolve cwd t p with
  | Some r =>
      if is_dir t r then
        omap (λ kv : list string * node,
                let k := kv.1 in
                if bool_decide (r `prefix_of` k) && negb (bool_decide (k = r))
                   && pat (List.last k "")
                then Some {| absolute := absolute p;
                             parts := parts p ++ drop (length r) k |}
                else None)
             (map_to_list t)
      else []
  | None => []
  end.

(** ** The world and the monad of effectful code *)

(** Calls to external collaborators, in the order they are made. *)
Inductive Call :=
| CallMetaGarment (garment_name : string) (body : gmap string pyval) (design : pyval)
| CallVisPattern (pattern_file : PurePath)
| CallBodySave (body : gmap string pyval) (folder : PurePath)
| CallPathCofig
| CallBoxMesh
| CallRunSim
| CallExport (glb_path : PurePath)
| CallSetSectionStats
| CallSetBasic
| CallMerge (config : PurePath) (re_write : bool)
| CallBatchSim (num_samples : option Z)
    (outcome : option (bool * gmap string pyval * list string))
| CallResimFails (outcome : option (bool * gmap string pyval * list string))
| CallAddSysInfo (props : gmap string pyval)
| CallSerialize (props : gmap string pyval) (file : PurePath).

Record World := MkWorld {
  fs : tree;
  cwd : list string;
  calls : list Call;
  uuids : nat
}.

Definition set_fs (w : World) (t : tree) : World :=
  {| fs := t; cwd := cwd w; calls := calls w; uuids := uuids w |}.

Definition M (A : Type) : Type := World → Res A * World.

Definition ret {A} (a : A) : M A := λ w, (Ok a, w).

Definition bind {A B} (m : M A) (k : A → M B) : M B :=
  λ w, match m w with
       | (Ok a, w') => k a w'
       | (Raise e, w') => (Raise e, w')
       end.

Definition raise {A} (e : exn) : M A := λ w, (Raise e, w).

(** [try: m except Exception as e: h e]; the effects of [m] up to the raise
    stay. *)
Definition try_except {A} (m : M A) (h : exn → M A) : M A :=
  λ w, match m w with
       | (Ok a, w') => (Ok a, w')
       | (Raise e, w') => if is_Exception e then h e w' else (Raise e, w')
       end.

Declare Scope py_scope.
Delimit Scope py_scope with py.
Notation "x <- m ;; k" := (bind m (λ x, k))
  (at level 100, m at next level, right associativity) : py_scope.
Notation "'let*' pat := m 'in' k" := (bind m (λ pat, k))
  (at level 10, pat pattern, m at level 100, k at level 200) : py_scope.
Notation "m ;; k" := (bind m (λ _, k))
  (at level 100, right associativity) : py_scope.
Local Open Scope py_scope.

(** An external collaborator sees the working directory and the file system. *)
Definition Ext (A : Type) : Type := list string → tree → Res A * tree.

(** The call is appended to the trace when it returns or raises; the event
    may record what came back. *)
Definition call_log {A} (c : Res A → Call) (f : Ext A) : M A :=
  λ w, let (r, t) := f (cwd w) (fs w) in
       (r, {| fs := t; cwd := cwd w; calls := calls w ++ [c r]; uuids := uuids w |}).

Definition call {A} (c : Call) (f : Ext A) : M A := call_log (λ _, c) f.

(** File system operations of the code itself leave the call trace alone. *)
Definition on_fs {A} (f : Ext A) : M A :=
  λ w, let (r, t) := f (cwd w) (fs w) in (r, set_fs w t).

Definition exists_ (p : PurePath) : M bool :=
  λ w, (Ok (path_exists (cwd w) (fs w) p), w).

Definition rglob_ (p : PurePath) (pat : string → bool) : M (list PurePath) :=
  λ w, (Ok (rglob (cwd w) (fs w) p pat), w).

Definition lift {A} (r : Res A) : M A := λ w, (r, w).

(** [d[k]] *)
Definition getitem (d : dict) (k : string) : Res pyval :=
  match d !! k with
  | Some v => Ok v
  | None => Raise (KeyError k)
  end.

(** A call [f(k1=v1, ..., kn=vn)] that gives every argument by keyword.
    Python binds the arguments to the parameters before the body of [f] runs:
    a keyword that is no parameter is a [TypeError], and so is a parameter
    without a default that gets no value.  A parameter is listed with
    whether it is required. *)
Definition bind_keywords (parameters : list (string * bool))
    (keywords : list (string * pyval)) : Res dict :=
  match List.filter (λ kv, negb (existsb (String.eqb kv.1) (map fst parameters))) keywords with
  | (k, _) :: _ =>
      Raise (TypeError (Cat (Lit "got an unexpected keyword argument ") (Lit k)))
  | [] =>
      match List.filter (λ p, snd p && negb (existsb (String.eqb p.1) (map fst keywords)))
                        parameters with
      | (k, _) :: _ =>
          Raise (TypeError (Cat (Lit "missing 1 required positional argument: ") (Lit k)))
      | [] => Ok (list_to_map keywords)
      end
  end.

Definition newline : string := String (ascii_of_nat 10) EmptyString.

(** The detail [f"{prefix}{str(e)}\n{traceback.format_exc()}"]. *)
Definition detail_with_traceback (prefix : string) (e : exn) : text :=
  Cat (Lit prefix) (Cat (StrOf e) (Cat (Lit newline) (Traceback e))).

(** ** Body Profile *)

Record BodyParameters := MkBody { params : dict }.

(** Modelled from the spec: the class [BodyParameters]
    (assets/bodies/body_params.py) is not among the sources; only its callers
    are.  Section 4.1: "constructs a fresh profile, applies the default values
    first, then overwrites with every key present in overrides; unknown keys
    are an input error".  [BodyParameters_fresh defaults] is the fresh
    profile with the default values [defaults] applied.  The callers
    construct it as [BodyParameters()], with no file and no profile: which
    values those are is the matter of the class. *)
Definition BodyParameters_fresh (defaults : dict) : BodyParameters :=
  {| params := defaults |}.

(** Modelled from the spec: [BodyParameters.load_from_dict], the second half
    of the sentence quoted above. *)
Definition load_from_dict (body : BodyParameters) (in_dict : dict) : Res BodyParameters :=
  if bool_decide (dom in_dict ⊆ dom (params body))
  then Ok {| params := in_dict ∪ params body |}
  else Raise (ValueError (Lit "unknown body measurement")).

(** Modelled from the spec: [BodyParameters(param_file)], "defaults loaded
    once at process start from a canonical profile". *)
Definition BodyParameters_load (param_file : PurePath) : M BodyParameters :=
  λ w, match read_file (cwd w) (fs w) param_file with
       | Ok (Ser (PDict d)) => (Ok {| params := d |}, w)
       | Ok _ => (Raise (ValueError (Lit "not a body profile")), w)
       | Raise e => (Raise e, w)
       end.

(** Modelled from the spec: the class [Properties] (pygarment/data_config.py)
    is not among the sources.  Section 3: "Dataset Run State: per
    dataset-and-body-type, persisted properties including a frozen flag"; a
    properties file holds one mapping, and [Properties(filename)] reads it. *)
Definition Properties (filename : PurePath) : M dict :=
  λ w, match read_file (cwd w) (fs w) filename with
       | Ok (Ser (PDict d)) => (Ok d, w)
       | Ok _ => (Raise (ValueError (Lit "not a properties file")), w)
       | Raise e => (Raise e, w)
       end.

(** The lines "Setup body parameters" of [generate_3d] and [generate_svg]:
    [if body_params:] is a truthiness test, so [None] and [{}] both take the
    shared default profile.  With overrides the profile is built from
    [BodyParameters()], whose default values are [fresh_defaults]; the shared
    default profile is not read on that branch. *)
Definition setup_body (fresh_defaults : dict) (default_body_params : BodyParameters)
    (body_params : option dict) : Res BodyParameters :=
  match body_params with
  | Some d =>
      if truthy (PDict d)
      then
        let body := BodyParameters_fresh fresh_defaults in
        load_from_dict body d
      else Ok default_body_params
  | None => Ok default_body_params
  end.

(** ** The services *)

Record SerializeFlags := MkFlags {
  to_subfolder : bool;
  with_3d : bool;
  with_text : bool;
  view_ids : bool;
  with_printable : bool;
  empty_ok : bool
}.

(** The fields of [PathCofig] that the service reads. *)
Record Paths := MkPaths {
  in_g_spec : PurePath;
  g_sim : PurePath;
  out_el : PurePath
}.

Record GarmentTo3DService := Mk3D {
  output_root : PurePath;
  default_body_params : BodyParameters;
  sim_props : dict
}.

Record GarmentSVGService := MkSVG {
  svg_output_root : PurePath;
  svg_default_body_params : BodyParameters
}.

(** (pattern folder, SVG file, PNG file, PDF file or None) *)
Definition SvgFiles : Type := PurePath * PurePath * PurePath * option PurePath.

(** *** External collaborators

    The pattern compiler, the pattern wrapper, the box-mesh builder, the
    draping simulator and the mesh exporter live outside the sources modelled
    here.  Each may fail with an exception and may write to the file system. *)
Record Collaborators := MkCollaborators {
  (** [BodyParameters()]: the default values of a profile that is
      constructed without a parameter file (the class is not among the
      sources; see [BodyParameters_fresh]) *)
  BodyParameters_defaults : dict;
  (** [MetaGarment(name, body, design).assembly().serialize(session_dir, ...)]:
      the pattern folder and [sew_pattern.name]. *)
  MetaGarment_serialize :
    string → BodyParameters → pyval → PurePath → SerializeFlags → Ext (PurePath * string);
  (** [VisPattern(pattern_file)], [pattern.name = pattern_name],
      [pattern.serialize(session_dir, ...)]: the pattern folder. *)
  VisPattern_serialize :
    PurePath → string → PurePath → SerializeFlags → Ext PurePath;
  (** [body.save(pattern_folder)] *)
  body_save : BodyParameters → PurePath → Ext unit;
  (** [PathCofig(in_element_path, out_path, in_name, out_name, ...)] *)
  PathCofig : PurePath → PurePath → string → string → Ext Paths;
  (** [BoxMesh(paths.in_g_spec, resolution_scale)], [load()],
      [serialize(paths, ...)]: [garment_box_mesh.name]. *)
  BoxMesh_serialize : Paths → dict → Ext string;
  (** [run_sim(name, sim_props, paths, ...)] *)
  run_sim : string → dict → Paths → Ext unit;
  (** [trimesh.load_mesh(paths.g_sim)], the material change and
      [mesh.export(glb_path)]. *)
  export_glb : PurePath → PurePath → Ext unit;
  (** [props.set_section_stats(section, **stats)] with every statistic set
      to [{}] *)
  set_section_stats : dict → string → list string → Ext dict;
  (** [uuid.uuid4()]: the n-th token handed out. *)
  uuid4 : nat → string
}.

Section Services.

Variable ext : Collaborators.

Definition fresh_uuid : M string :=
  λ w, (Ok (uuid4 ext (uuids w)),
        {| fs := fs w; cwd := cwd w; calls := calls w; uuids := S (uuids w) |}).

(** [Path.cwd()] *)
Definition Path_cwd : M PurePath := λ w, (Ok (MkPath true (cwd w)), w).

(** *** [GarmentTo3DService] (pattern_data_sim.py) *)

Definition GarmentTo3DService___init__ (output_root : string) : M GarmentTo3DService :=
  let output_root := Path output_root in
  on_fs (λ c t, mkdir_parents c t output_root) ;;
  (* Load default body parameters *)
  let* here := Path_cwd in
  let* default_body_params := BodyParameters_load (here /: "assets/bodies/mean_all.yaml") in
  (* Load simulation properties *)
  let* sim_props := Properties (Path "./assets/Sim_props/gui_sim_props.yaml") in
  let* sim_props :=
    call CallSetSectionStats
         (set_section_stats ext sim_props "sim"
            ["fails"; "sim_time"; "spf"; "fin_frame"; "body_collisions"; "self_collisions"]) in
  let* sim_props :=
    call CallSetSectionStats (set_section_stats ext sim_props "render" ["render_time"]) in
  ret (Mk3D output_root default_body_params sim_props).

Definition GarmentTo3DService_generate_3d (self : GarmentTo3DService) (design_params : dict)
    (session_id : string) (body_params : option dict) : M (PurePath * PurePath) :=
  (* Create session directory *)
  let session_dir := output_root self /: session_id in
  on_fs (λ c t, mkdir_parents c t session_dir) ;;
  (* Setup body parameters *)
  let* body := lift (setup_body (BodyParameters_defaults ext) (default_body_params self)
                       body_params) in
  (* Create garment pattern, save pattern *)
  let* (pattern_folder, sew_pattern_name) :=
    call (CallMetaGarment "Configured_design" (params body) (PDict design_params))
         (MetaGarment_serialize ext "Configured_design" body (PDict design_params) session_dir
            (MkFlags true false false false true true)) in
  (* Save parameters *)
  call (CallBodySave (params body) pattern_folder) (body_save ext body pattern_folder) ;;
  on_fs (λ c t, write_file c t (pattern_folder /: "design_params.yaml")
                  (Ser (PDict {[ "design" := PDict design_params ]}))) ;;
  (* Setup paths for 3D generation *)
  let* paths :=
    call CallPathCofig
         (PathCofig ext pattern_folder session_dir sew_pattern_name
            (sew_pattern_name +:+ "_3D")) in
  (* Generate and save garment box mesh *)
  let* box_mesh_name := call CallBoxMesh (BoxMesh_serialize ext paths (sim_props self)) in
  (* Run simulation *)
  call CallRunSim (run_sim ext box_mesh_name (sim_props self) paths) ;;
  (* Convert to GLB *)
  let glb_path := out_el paths /: (sew_pattern_name +:+ "_sim.glb") in
  call (CallExport glb_path) (export_glb ext (g_sim paths) glb_path) ;;
  ret (out_el paths, glb_path).

Definition GarmentTo3DService_cleanup_session (self : GarmentTo3DService) (session_id : string) : M unit :=
  let session_dir := output_root self /: session_id in
  let* present := exists_ session_dir in
  if present then on_fs (λ c t, rmtree c t session_dir) else ret ().

(** *** [GarmentSVGService] (api_garment_3d_service.py) *)

Definition GarmentSVGService___init__ (output_root : string) : M GarmentSVGService :=
  let output_root := Path output_root in
  on_fs (λ c t, mkdir_parents c t output_root) ;;
  (* Load default body parameters *)
  let* here := Path_cwd in
  let* default_body_params := BodyParameters_load (here /: "assets/bodies/mean_all.yaml") in
  ret (MkSVG output_root default_body_params).

Definition _generate_svg_from_design_params (design_params : pyval)
    (session_dir : PurePath) (body : BodyParameters)
    (with_text view_ids with_printable : bool) : M SvgFiles :=
  try_except
    (let* (pattern_folder, sew_pattern_name) :=
       call (CallMetaGarment "SVG_Pattern" (params body) design_params)
            (MetaGarment_serialize ext "SVG_Pattern" body design_params session_dir
               (MkFlags true false with_text view_ids with_printable true)) in
     call (CallBodySave (params body) pattern_folder) (body_save ext body pattern_folder) ;;
     on_fs (λ c t, write_file c t (pattern_folder /: "design_params.yaml")
                     (Ser (PDict {[ "design" := design_params ]}))) ;;
     let svg_file := pattern_folder /: (sew_pattern_name +:+ "_pattern.svg") in
     let png_file := pattern_folder /: (sew_pattern_name +:+ "_pattern.png") in
     let pdf_file :=
       if with_printable
       then Some (pattern_folder /: (sew_pattern_name +:+ "_print_pattern.pdf"))
       else None in
     ret (pattern_folder, svg_file, png_file, pdf_file))
    (λ e, raise e).

(** The [try] block of [_generate_svg_from_pattern_spec]. *)
Definition load_pattern_spec (pattern_specification : dict)
    (session_dir : PurePath) (body : BodyParameters) (pattern_name : string)
    (with_text view_ids with_printable : bool) : M SvgFiles :=
  let pattern_file := session_dir /: (pattern_name +:+ "_specification.json") in
  on_fs (λ c t, write_file c t pattern_file (Ser (PDict pattern_specification))) ;;
  let* pattern_folder :=
    call (CallVisPattern pattern_file)
         (VisPattern_serialize ext pattern_file pattern_name session_dir
            (MkFlags true false with_text view_ids with_printable true)) in
  call (CallBodySave (params body) pattern_folder) (body_save ext body pattern_folder) ;;
  let svg_file := pattern_folder /: (pattern_name +:+ "_pattern.svg") in
  let png_file := pattern_folder /: (pattern_name +:+ "_pattern.png") in
  let pdf_file :=
    if with_printable
    then Some (pattern_folder /: (pattern_name +:+ "_print_pattern.pdf"))
    else None in
  ret (pattern_folder, svg_file, png_file, pdf_file).

Definition _generate_svg_from_pattern_spec (pattern_specification : dict)
    (session_dir : PurePath) (body : BodyParameters) (pattern_name : string)
    (with_text view_ids with_printable : bool) : M SvgFiles :=
  try_except
    (load_pattern_spec pattern_specification session_dir body pattern_name
       with_text view_ids with_printable)
    (λ e,
       (* Fallback: try to extract design parameters if available *)
       match pattern_specification !! "design" with
       | Some design_params =>
           _generate_svg_from_design_params design_params session_dir body
             with_text view_ids with_printable
       | None =>
           raise (Exception_ (Cat (Lit "Could not process pattern specification: ")
                                  (StrOf e)))
       end).

Definition opt_val (o : option dict) : pyval :=
  match o with
  | Some d => PDict d
  | None => PNone
  end.

Definition GarmentSVGService_generate_svg (self : GarmentSVGService)
    (design_params pattern_specification : option dict) (session_id : string)
    (body_params : option dict) (with_text view_ids with_printable : bool)
    : M SvgFiles :=
  if bool_decide (design_params = None) && bool_decide (pattern_specification = None)
  then raise (ValueError (Lit "Either design_params or pattern_specification must be provided"))
  else
    (* Create session directory *)
    let session_dir := svg_output_root self /: session_id in
    on_fs (λ c t, mkdir_parents c t session_dir) ;;
    (* Setup body parameters *)
    let* body := lift (setup_body (BodyParameters_defaults ext) (svg_default_body_params self)
                         body_params) in
    match pattern_specification with
    | Some spec =>
        _generate_svg_from_pattern_spec spec session_dir body "user_pattern_svg"
          with_text view_ids with_printable
    | None =>
        _generate_svg_from_design_params (opt_val design_params) session_dir body
          with_text view_ids with_printable
    end.

Definition GarmentSVGService_cleanup_session (self : GarmentSVGService) (session_id : string) : M unit :=
  let session_dir := svg_output_root self /: session_id in
  let* present := exists_ session_dir in
  if present then on_fs (λ c t, rmtree c t session_dir) else ret ().

(** [self.generate_3d(k1=v1, ...)]: [GarmentTo3DService.generate_3d] called
    with keyword arguments only.  Its parameters after [self] are
    [design_params], [session_id] and [body_params=None]
    (pattern_data_sim.py).  The callers pass mappings, a string and an
    optional mapping; a bound value of another kind is not passed on. *)
Definition GarmentTo3DService_generate_3d_by_keyword (self : GarmentTo3DService)
    (keywords : list (string * pyval)) : M (PurePath * PurePath) :=
  let* bound :=
    lift (bind_keywords
            [("design_params", true); ("session_id", true); ("body_params", false)]
            keywords) in
  match bound !! "design_params", bound !! "session_id" with
  | Some (PDict design_params), Some (PStr session_id) =>
      GarmentTo3DService_generate_3d self design_params session_id
        match bound !! "body_params" with
        | Some (PDict body_params) => Some body_params
        | _ => None
        end
  | _, _ => raise (TypeError (Lit "design_params is no mapping or session_id no string"))
  end.

End Services.

(** ** HTTP endpoints *)

Record FileResponse := MkFileResponse {
  path : PurePath;
  filename : string;
  media_type : string
}.

(** Paths are kept as paths where the code applies [str] to them. *)
Record Generate3DResponse := MkGenerate3DResponse {
  session_id : string;
  glb_file_path : PurePath;
  output_dir : PurePath
}.

Record GenerateSVGResponse := MkGenerateSVGResponse {
  svg_session_id : string;
  svg_file_path : PurePath;
  png_file_path : PurePath;
  svg_output_dir : PurePath;
  printable_pdf_path : option PurePath
}.

(** [{"status": "success", "message": f"{what} {session_id} cleaned up"}] *)
Definition cleaned_up (what session_id : string) : dict :=
  {[ "status" := PStr "success";
     "message" := PStr (what +:+ " " +:+ session_id +:+ " cleaned up") ]}.

(** *** garment_3d_service.py *)
Module garment_3d_service.

Record Generate3DRequest := MkGenerate3DRequest {
  design_params : dict;
  body_params : option dict
}.

Section Handlers.

Variable ext : Collaborators.

(** What [GarmentTo3DService(output_root="./tmp_3d_service")] loaded when
    the module was imported. *)
Variable mean_all : BodyParameters.
Variable gui_sim_props : dict.

Definition service : GarmentTo3DService :=
  Mk3D (Path "./tmp_3d_service") mean_all gui_sim_props.

Definition generate_3d (request : Generate3DRequest) : M Generate3DResponse :=
  try_except
    ((* Generate unique session ID *)
     let* session_id := fresh_uuid ext in
     (* Generate 3D files *)
     let* (output_dir, glb_path) :=
       GarmentTo3DService_generate_3d ext service (design_params request) session_id
         (body_params request) in
     ret (MkGenerate3DResponse session_id glb_path output_dir))
    (λ e, raise (HTTPException 500 (detail_with_traceback "Error in 3D generation: " e))).

Definition download_glb (session_id : string) : M FileResponse :=
  try_except
    ((* Find the GLB file in the session directory *)
     let session_dir := Path "./tmp_3d_service" /: session_id in
     let* glb_files := rglob_ session_dir (ends_with ".glb") in
     match glb_files with
     | [] => raise (HTTPException 404 (Lit "GLB file not found"))
     | f :: _ => ret (MkFileResponse f (name f) "model/gltf-binary")
     end)
    (λ e, raise (HTTPException 500 (StrOf e))).

Definition cleanup_session (session_id : string) : M dict :=
  try_except
    (GarmentTo3DService_cleanup_session service session_id ;;
     ret (cleaned_up "Session" session_id))
    (λ e, raise (HTTPException 500 (StrOf e))).

End Handlers.

End garment_3d_service.

(** *** api_garment_3d_service.py *)
Module api_garment_3d_service.

Record GenerateSVGRequest := MkGenerateSVGRequest {
  pattern_specification : option dict;
  design_params : option dict;
  body_params : option dict;
  with_text : bool;
  view_ids : bool;
  with_printable : bool
}.

Record Generate3DRequest := MkGenerate3DRequest {
  raw_pattern_specification : dict;
  raw_body_params : option dict
}.

Section Handlers.

Variable ext : Collaborators.
Variable mean_all : BodyParameters.
Variable gui_sim_props : dict.

Definition service : GarmentTo3DService :=
  Mk3D (Path "./tmp_3d_service") mean_all gui_sim_props.

Definition svg_service : GarmentSVGService :=
  MkSVG (Path "./tmp_svg_service") mean_all.

(** [POST /generate3d]: the request's specification goes to
    [service.generate_3d] under the keyword [pattern_specification]. *)
Definition generate_3d (request : Generate3DRequest) : M Generate3DResponse :=
  try_except
    ((* Generate unique session ID *)
     let* session_id := fresh_uuid ext in
     (* Generate 3D files *)
     let* (output_dir, glb_path) :=
       GarmentTo3DService_generate_3d_by_keyword ext service
         [ ("pattern_specification", PDict (raw_pattern_specification request));
           ("session_id", PStr session_id);
           ("body_params", opt_val (raw_body_params request)) ] in
     ret (MkGenerate3DResponse session_id glb_path output_dir))
    (λ e, raise (HTTPException 500 (detail_with_traceback "Error in 3D generation: " e))).

Definition download_glb (session_id : string) : M FileResponse :=
  try_except
    (let session_dir := Path "./tmp_3d_service" /: session_id in
     let* glb_files := rglob_ session_dir (ends_with ".glb") in
     match glb_files with
     | [] => raise (HTTPException 404 (Lit "GLB file not found"))
     | f :: _ => ret (MkFileResponse f (name f) "model/gltf-binary")
     end)
    (λ e, raise (HTTPException 500 (StrOf e))).

Definition cleanup_session (session_id : string) : M dict :=
  try_except
    (GarmentTo3DService_cleanup_session service session_id ;;
     ret (cleaned_up "Session" session_id))
    (λ e, raise (HTTPException 500 (StrOf e))).

Definition generate_svg (request : GenerateSVGRequest) : M GenerateSVGResponse :=
  try_except
    ((* Validate input *)
     if negb (truthy_opt (pattern_specification request))
        && negb (truthy_opt (design_params request))
     then raise (HTTPException 400
                   (Lit "Either pattern_specification or design_params must be provided"))
     else
       (* Generate unique session ID *)
       let* session_id := fresh_uuid ext in
       (* Generate SVG files *)
       let* (output_dir, svg_path, png_path, pdf_path) :=
         GarmentSVGService_generate_svg ext svg_service (design_params request)
           (pattern_specification request) session_id (body_params request)
           (with_text request) (view_ids request) (with_printable request) in
       ret (MkGenerateSVGResponse session_id svg_path png_path output_dir pdf_path))
    (λ e, raise (HTTPException 500 (detail_with_traceback "Error in SVG generation: " e))).

Definition download_svg (session_id : string) : M FileResponse :=
  try_except
    (let session_dir := Path "./tmp_svg_service" /: session_id in
     let* svg_files := rglob_ session_dir (ends_with ".svg") in
     (* Filter out printable SVG files, get the main pattern SVG *)
     let pattern_svg_files :=
       List.filter (λ f, contains "_pattern.svg" (name f)
                         && negb (contains "_print_pattern.svg" (name f)))
                   svg_files in
     match pattern_svg_files with
     | [] => raise (HTTPException 404 (Lit "SVG file not found"))
     | f :: _ => ret (MkFileResponse f (name f) "image/svg+xml")
     end)
    (λ e, raise (HTTPException 500 (StrOf e))).

Definition download_png (session_id : string) : M FileResponse :=
  try_except
    (let session_dir := Path "./tmp_svg_service" /: session_id in
     let* png_files := rglob_ session_dir (ends_with ".png") in
     (* Filter to get the main pattern PNG (not 3D) *)
     let pattern_png_files :=
       List.filter (λ f, contains "_pattern.png" (name f)
                         && negb (contains "_3d_pattern.png" (name f)))
                   png_files in
     match pattern_png_files with
     | [] => raise (HTTPException 404 (Lit "PNG file not found"))
     | f :: _ => ret (MkFileResponse f (name f) "image/png")
     end)
    (λ e, raise (HTTPException 500 (StrOf e))).

Definition download_pdf (session_id : string) : M FileResponse :=
  try_except
    (let session_dir := Path "./tmp_svg_service" /: session_id in
     let* pdf_files := rglob_ session_dir (ends_with ".pdf") in
     match pdf_files with
     | [] => raise (HTTPException 404 (Lit "PDF file not found"))
     | f :: _ => ret (MkFileResponse f (name f) "application/pdf")
     end)
    (λ e, raise (HTTPException 500 (StrOf e))).

Definition cleanup_svg_session (session_id : string) : M dict :=
  try_except
    (GarmentSVGService_cleanup_session svg_service session_id ;;
     ret (cleaned_up "SVG Session" session_id))
    (λ e, raise (HTTPException 500 (StrOf e))).

Definition generate_pattern_svg (request : Generate3DRequest) : M GenerateSVGResponse :=
  try_except
    (let* session_id := fresh_uuid ext in
     let* (output_dir, svg_path, png_path, pdf_path) :=
       GarmentSVGService_generate_svg ext svg_service None
         (Some (raw_pattern_specification request)) session_id
         (raw_body_params request) true false true in
     ret (MkGenerateSVGResponse session_id svg_path png_path output_dir pdf_path))
    (λ e, raise (HTTPException 500
                   (detail_with_traceback "Error in pattern SVG generation: " e))).

End Handlers.

End api_garment_3d_service.

(** ** Batch driver (pattern_data_sim.py, [__main__]) *)

Record CommandArgs := MkArgs {
  data : option string;
  config : option string;
  minibatch : option Z;
  default_body : bool;
  caching : bool;
  rewrite_config : bool
}.

(** The methods of [Properties] that change it and the two passes of
    [pygarment.meshgen.datasim_utils]: external.  A pass gives back whether the
    dataset is finished, the properties it updated in place, and (for the
    statements about items) the items it attempted, in order. *)
Record BatchCollaborators := MkBatchCollaborators {
  (** [props.set_basic(data_folder=dataset)] *)
  set_basic : dict → string → Ext dict;
  (** [props.merge(config_file, re_write=...)] *)
  merge : dict → PurePath → bool → Ext dict;
  (** [sim.batch_sim(datapath, output_path, props, run_default_body,
      num_samples, caching, force_restart)] *)
  batch_sim :
    PurePath → PurePath → dict → bool → option Z → bool → bool →
    Ext (bool * dict * list string);
  (** [sim.resim_fails(datapath, output_path, props, run_default_body, caching)] *)
  resim_fails :
    PurePath → PurePath → dict → bool → bool → Ext (bool * dict * list string);
  (** [props.add_sys_info()] *)
  add_sys_info : dict → Ext dict;
  (** [props.serialize(dataset_file)] *)
  serialize : dict → PurePath → Ext unit
}.

Definition pass_outcome (r : Res (bool * dict * list string))
  : option (bool * dict * list string) :=
  match r with
  | Ok x => Some x
  | Raise _ => None
  end.

(** [Path(v)] for a value read from a properties file. *)
Definition Path_of (v : pyval) : Res PurePath :=
  match v with
  | PStr s => Ok (Path s)
  | _ => Raise (TypeError (Lit "expected str, bytes or os.PathLike object"))
  end.

(** [p / dataset] where [--data] was not given. *)
Definition join_opt (p : PurePath) (o : option string) : Res PurePath :=
  match o with
  | Some s => Ok (p /: s)
  | None => Raise (TypeError (Lit "unsupported operand type(s) for /"))
  end.

Fixpoint for_each {A} (l : list A) (body : A → M unit) : M unit :=
  match l with
  | [] => ret ()
  | x :: l' => body x ;; for_each l' body
  end.

(** [try: m except shutil.SameFileError: pass] *)
Definition except_SameFileError (m : M unit) : M unit :=
  λ w, match m w with
       | (Raise (SameFileError _), w') => (Ok (), w')
       | r => r
       end.

Definition gather_renders (out_data_path : PurePath) : M unit :=
  let renders_path := out_data_path /: "renders" in
  on_fs (λ c t, mkdir_exist_ok c t renders_path) ;;
  let* render_files := rglob_ out_data_path match_render_png in
  for_each render_files
    (λ file, except_SameFileError (on_fs (λ c t, copy c t file renders_path))).

(** [sys.exit(code)] *)
Definition sys_exit {A} (code : Z) : M A := raise (SystemExit code).

Section Batch.

Variable bx : BatchCollaborators.

(** What the block has in hand once the run state is loaded. *)
Record Setup := MkSetup {
  system_config : dict;
  dataset : string;
  datapath : PurePath;
  output_path : PurePath;
  dataset_file : PurePath;
  props : dict
}.

(** From the top of the block to [props = Properties(dataset_file_body)]. *)
Definition main_setup (command_args : CommandArgs) : M Setup :=
  let* system_config := Properties (Path "./system.json") in
  (* ------ Dataset ------ *)
  let dataset := data command_args in
  let* datasets_path := lift (getitem system_config "datasets_path") in
  let* datasets_path := lift (Path_of datasets_path) in
  let* datapath := lift (join_opt datasets_path dataset) in
  let init_dataset_file := datapath /: "dataset_properties.yaml" in
  let body_type := if default_body command_args then "default_body" else "random_body" in
  let datapath := datapath /: body_type /: "data" in
  let* datasets_sim := lift (getitem system_config "datasets_sim") in
  let* datasets_sim := lift (Path_of datasets_sim) in
  let* output_path := lift (join_opt datasets_sim dataset) in
  let output_path := output_path /: body_type in
  on_fs (λ c t, mkdir_parents c t output_path) ;;
  let dataset_file_body :=
    output_path /: ("dataset_properties_" +:+ body_type +:+ ".yaml") in
  let* present := exists_ dataset_file_body in
  (if present then ret ()
   else on_fs (λ c t, copy c t init_dataset_file dataset_file_body)) ;;
  let* props := Properties dataset_file_body in
  ret (MkSetup system_config (default "" dataset) datapath output_path
         dataset_file_body props).

(** ['frozen' in props and props['frozen']] *)
Definition is_frozen (props : dict) : bool :=
  match props !! "frozen" with
  | Some v => truthy v
  | None => false
  end.

(** "Defining sim props" *)
Definition define_sim_props (command_args : CommandArgs) (s : Setup) : M dict :=
  let* props := call CallSetBasic (set_basic bx (props s) (dataset s)) in
  match config command_args with
  | Some cfg =>
      let* sim_configs_path := lift (getitem (system_config s) "sim_configs_path") in
      let* sim_configs_path := lift (Path_of sim_configs_path) in
      (* Re-write sim config only explicitly *)
      call (CallMerge (sim_configs_path /: cfg) (rewrite_config command_args))
           (merge bx props (sim_configs_path /: cfg) (rewrite_config command_args))
  | None => ret props
  end.

(** "Main loop": run in mini-batch if requested. *)
Definition main_loop (command_args : CommandArgs) (s : Setup) (props : dict)
  : M (bool * dict) :=
  let* (finished, props, _) :=
    call_log (λ r, CallBatchSim (minibatch command_args) (pass_outcome r))
             (batch_sim bx (datapath s) (output_path s) props
                (default_body command_args) (minibatch command_args)
                (caching command_args) false) in
  ret (finished, props).

(** "Try and resim fails once" *)
Definition try_resim_fails_once (command_args : CommandArgs) (s : Setup)
    (finished : bool) (props : dict) : M (bool * dict) :=
  if finished then
    (* NOTE: Could be larger than a regular batch *)
    let* (finished, props, _) :=
      call_log (λ r, CallResimFails (pass_outcome r))
               (resim_fails bx (datapath s) (output_path s) props
                  (default_body command_args) (caching command_args)) in
    ret (finished, props)
  else ret (finished, props).

(** Save system information, "Gather renders", "fin" *)
Definition finish (s : Setup) (finished : bool) (props : dict) : M unit :=
  let* props := call (CallAddSysInfo props) (add_sys_info bx props) in
  call (CallSerialize props (dataset_file s)) (serialize bx props (dataset_file s)) ;;
  gather_renders (output_path s) ;;
  if finished then
    (* finished processing the dataset *)
    sys_exit 0
  else sys_exit 1 (* not finished dataset processing *).

(** From the frozen check to the end of the block. *)
Definition main_run (command_args : CommandArgs) (s : Setup) : M unit :=
  if is_frozen (props s) then
    (* avoid accidential re-runs of data *)
    sys_exit 0
  else
    let* props := define_sim_props command_args s in
    let* (finished, props) := main_loop command_args s props in
    let* (finished, props) := try_resim_fails_once command_args s finished props in
    finish s finished props.

Definition main (command_args : CommandArgs) : M unit :=
  let* s := main_setup command_args in
  main_run command_args s.

End Batch.

(** The exit status the interpreter reports: the code given to [sys.exit], 1
    for an exception nobody caught, 0 when the script runs off its end. *)
Definition exit_status {A} (r : Res A) : Z :=
  match r with
  | Ok _ => 0
  | Raise (SystemExit code) => code
  | Raise _ => 1
  end.

(** The body shared by the two [cleanup_session] methods, for a session
    directory already computed. *)
Definition remove_if_present (session_dir : PurePath) : M unit :=
  let* present := exists_ session_dir in
  if present then on_fs (λ c t, rmtree c t session_dir) else ret ().

(** A session identifier that is one ordinary path component, as the tokens
    of [uuid.uuid4()] are: not empty, not ["."] or [".."], no slash. *)
Definition plain_name (s : string) : bool :=
  is_segment s && negb (String.eqb s "..") && negb (contains "/" s).

(** What the handler of a download endpoint makes of its own 404. *)
Definition not_found (what : string) : exn :=
  HTTPException 500 (StrOf (HTTPException 404 (Lit what))).


Definition is_parametric (c : Call) : bool :=
  match c with
  | CallMetaGarment _ _ _ => true
  | _ => false
  end.

(** Whatever the world, the computation adds to the trace only calls that
    satisfy [P], and erases none. *)
Definition emits {A} (P : Call → Prop) (m : M A) : Prop :=
  ∀ w, ∃ l, calls (m w).2 = calls w ++ l ∧ Forall P l.

(** *** Reading the trace of a batch invocation *)

Definition is_pass (c : Call) : bool :=
  match c with
  | CallBatchSim _ _ | CallResimFails _ => true
  | _ => false
  end.

Definition is_resim (c : Call) : bool :=
  match c with
  | CallResimFails _ => true
  | _ => false
  end.

(** The items a pass attempted, as far as it reported them. *)
Definition items_of (c : Call) : list string :=
  match c with
  | CallBatchSim _ (Some (_, _, items)) => items
  | CallResimFails (Some (_, _, items)) => items
  | _ => []
  end.

Definition items_attempted (tr : list Call) : list string :=
  concat (map items_of tr).

Definition items_retried (tr : list Call) : list string :=
  concat (map items_of (List.filter is_resim tr)).

(** Both passes were run and both reported the dataset finished. *)
Definition both_finished (tr : list Call) : Prop :=
  ∃ n p items p2 items2,
    CallBatchSim n (Some (true, p, items)) ∈ tr ∧
    CallResimFails (Some (true, p2, items2)) ∈ tr.

(** An exception (not a [sys.exit]) left the script. *)
Definition escaped {A} (r : Res A) : bool :=
  match r with
  | Raise e => is_Exception e
  | Ok _ => false
  end.

(** What the calls added to the trace since [w]. *)
Definition calls_since (w w' : World) : list Call :=
  drop (length (calls w)) (calls w').

Definition raises_only {A} (Q : exn → Prop) (f : Ext A) : Prop :=
  ∀ c t e t', f c t = (Raise e, t') → Q e.

(** Every exception a batch collaborator raises satisfies [Q]. *)
Definition collaborators_raise (Q : exn → Prop) (bx : BatchCollaborators) : Prop :=
  (∀ p d, raises_only Q (set_basic bx p d)) ∧
  (∀ p f b, raises_only Q (merge bx p f b)) ∧
  (∀ dp op p rd n c fr, raises_only Q (batch_sim bx dp op p rd n c fr)) ∧
  (∀ dp op p rd c, raises_only Q (resim_fails bx dp op p rd c)) ∧
  (∀ p, raises_only Q (add_sys_info bx p)) ∧
  (∀ p f, raises_only Q (serialize bx p f)).

(** A resim pass attempts no item twice. *)
Definition resim_retries_once (bx : BatchCollaborators) : Prop :=
  ∀ dp op p rd c cw t finished p2 items t',
    resim_fails bx dp op p rd c cw t = (Ok (finished, p2, items), t') → NoDup items.

(** The computation adds [new] to the trace and comes back with [r], for
    some [new] and [r] that [T] admits. *)
Definition phase {A} (T : list Call → Res A → Prop) (m : M A) : Prop :=
  ∀ w, ∃ new, calls (m w).2 = calls w ++ new ∧ T new (m w).1.

Definition is_config (c : Call) : bool :=
  match c with
  | CallSetBasic | CallMerge _ _ => true
  | _ => false
  end.

(** The passes among the calls, in order. *)
Definition passes_of (tr : list Call) : list Call := List.filter is_pass tr.

(** The computation lets no [sys.exit] of its own out: what it raises is an
    [Exception]. *)
Definition raises_exceptions {A} (m : M A) : Prop :=
  ∀ w e w', m w = (Raise e, w') → is_Exception e = true.

(** The end of a run that got past the passes with [finished] and [p]: the
    run state is handed to [add_sys_info], what comes back is serialized. *)
Inductive tail_shape (bx : BatchCollaborators) (Q : exn → Prop)
    (finished : bool) (p : dict) (file : PurePath) : list Call → Res unit → Prop :=
| tail_sys_info_raised e :
    Q e → tail_shape bx Q finished p file [CallAddSysInfo p] (Raise e)
| tail_raised p3 c t t' e :
    add_sys_info bx p c t = (Ok p3, t') → Q e →
    tail_shape bx Q finished p file [CallAddSysInfo p; CallSerialize p3 file] (Raise e)
| tail_exit p3 c t t' :
    add_sys_info bx p c t = (Ok p3, t') →
    tail_shape bx Q finished p file [CallAddSysInfo p; CallSerialize p3 file]
      (Raise (SystemExit (if finished then 0 else 1))).

(** The passes of a run and what follows them; [R] holds of the items a
    resim pass reports. *)
Inductive pass_shape (bx : BatchCollaborators) (Q : exn → Prop)
    (R : list string → Prop) (file : PurePath) : list Call → Res unit → Prop :=
| pass_batch_raised n e :
    Q e → pass_shape bx Q R file [CallBatchSim n None] (Raise e)
| pass_batch_unfinished n p items tl r :
    tail_shape bx Q false p file tl r →
    pass_shape bx Q R file (CallBatchSim n (Some (false, p, items)) :: tl) r
| pass_resim_raised n p items e :
    Q e →
    pass_shape bx Q R file
      [CallBatchSim n (Some (true, p, items)); CallResimFails None] (Raise e)
| pass_resim n p items finished p2 items2 tl r :
    R items2 →
    tail_shape bx Q finished p2 file tl r →
    pass_shape bx Q R file
      (CallBatchSim n (Some (true, p, items))
         :: CallResimFails (Some (finished, p2, items2)) :: tl) r.

(** A run that was not skipped: calls that configure, then either an
    exception before any pass, or the passes. *)
Inductive run_shape (bx : BatchCollaborators) (Q : exn → Prop)
    (R : list string → Prop) (file : PurePath) : list Call → Res unit → Prop :=
| run_config_raised pre e :
    Forall (λ c, is_config c = true) pre → Q e →
    run_shape bx Q R file pre (Raise e)
| run_passes pre tl r :
    Forall (λ c, is_config c = true) pre →
    pass_shape bx Q R file tl r →
    run_shape bx Q R file (pre ++ tl) r.

(** ** Concrete inputs *)

Module Demo.

Definition glb : node := File (Blob "glb").

(** A server directory [/srv] with two sessions [a] and [b] of the 3D
    service and one session [a] of the SVG service. *)
Definition tree0 : tree :=
  list_to_map
    [ (["srv"], Dir);
      (["srv"; "tmp_3d_service"], Dir);
      (["srv"; "tmp_3d_service"; "a"], Dir);
      (["srv"; "tmp_3d_service"; "a"; "shirt_sim.glb"], glb);
      (["srv"; "tmp_3d_service"; "b"], Dir);
      (["srv"; "tmp_3d_service"; "b"; "skirt_sim.glb"], glb);
      (["srv"; "tmp_svg_service"], Dir);
      (["srv"; "tmp_svg_service"; "a"], Dir);
      (["srv"; "tmp_svg_service"; "a"; "p_pattern.svg"], File (Blob "svg")) ].

Definition world0 : World := MkWorld tree0 ["srv"] [] 0.

Definition mean_all : BodyParameters :=
  MkBody {[ "height" := PFloat 171 0; "waist" := PFloat 80 0; "hips" := PFloat 103 0 ]}.


Definition service : GarmentTo3DService :=
  Mk3D (Path "./tmp_3d_service") mean_all ∅.

Definition svg_service : GarmentSVGService :=
  MkSVG (Path "./tmp_svg_service") mean_all.

(** A pattern compiler that writes [folder/name_pattern.svg]. *)
Definition write_pattern (folder : PurePath) (nm : string) : Ext PurePath :=
  λ c t,
    match mkdir_parents c t folder with
    | (Ok _, t1) =>
        match write_file c t1 (folder /: (nm +:+ "_pattern.svg")) (Blob "svg") with
        | (Ok _, t2) => (Ok folder, t2)
        | (Raise e, t2) => (Raise e, t2)
        end
    | (Raise e, t1) => (Raise e, t1)
    end.

Definition ext : Collaborators := {|
  BodyParameters_defaults := params mean_all;
  MetaGarment_serialize := λ nm _ _ session_dir _ c t,
    match write_pattern (session_dir /: nm) nm c t with
    | (Ok folder, t1) => (Ok (folder, nm), t1)
    | (Raise e, t1) => (Raise e, t1)
    end;
  VisPattern_serialize := λ _ nm session_dir _, write_pattern (session_dir /: nm) nm;
  body_save := λ body folder c t,
    write_file c t (folder /: "body_measurements.yaml") (Ser (PDict (params body)));
  PathCofig := λ in_el out in_name out_name c t,
    (Ok (MkPaths (in_el /: (in_name +:+ "_specification.json"))
                 (out /: out_name /: (in_name +:+ "_sim.obj"))
                 (out /: out_name)), t);
  BoxMesh_serialize := λ _ _ c t, (Ok "box", t);
  run_sim := λ _ _ paths c t,
    match mkdir_parents c t (out_el paths) with
    | (Ok _, t1) => write_file c t1 (g_sim paths) (Blob "obj")
    | r => r
    end;
  export_glb := λ _ glb_path c t, write_file c t glb_path (Blob "glb");
  set_section_stats := λ d _ _ c t, (Ok d, t);
  uuid4 := λ n, "session-" +:+ pretty n
|}.

(** The same, with a pattern wrapper that rejects every specification. *)
Definition ext_raw_fails : Collaborators := {|
  BodyParameters_defaults := BodyParameters_defaults ext;
  MetaGarment_serialize := MetaGarment_serialize ext;
  VisPattern_serialize := λ _ _ _ _ c t, (Raise (Foreign "VisPattern"), t);
  body_save := body_save ext;
  PathCofig := PathCofig ext;
  BoxMesh_serialize := BoxMesh_serialize ext;
  run_sim := run_sim ext;
  export_glb := export_glb ext;
  set_section_stats := set_section_stats ext;
  uuid4 := uuid4 ext
|}.


(** An output folder with the renders of two garments. *)
Definition render_world : World :=
  MkWorld (list_to_map
             [ (["out"], Dir);
               (["out"; "g1"], Dir);
               (["out"; "g1"; "g1_render_front.png"], File (Blob "png1"));
               (["out"; "g1"; "g1_sim.obj"], File (Blob "obj"));
               (["out"; "g2"], Dir);
               (["out"; "g2"; "g2_render_back.png"], File (Blob "png2")) ])
          [] [] 0.

(** *** A dataset [shirts] for the batch driver *)

Definition system_json : dict :=
  {[ "datasets_path" := PStr "/data"; "datasets_sim" := PStr "/sim";
     "sim_configs_path" := PStr "/cfg" ]}.

Definition batch_tree (run_state : dict) : tree :=
  list_to_map
    [ (["srv"], Dir);
      (["srv"; "system.json"], File (Ser (PDict system_json)));
      (["data"], Dir);
      (["data"; "shirts"], Dir);
      (["data"; "shirts"; "dataset_properties.yaml"], File (Ser (PDict run_state)));
      (["sim"], Dir) ].

Definition batch_world (run_state : dict) : World :=
  MkWorld (batch_tree run_state) ["srv"] [] 0.

Definition run_state_fresh : dict := {[ "frozen" := PBool false ]}.
Definition run_state_frozen : dict := {[ "frozen" := PBool true ]}.

Definition args : CommandArgs :=
  MkArgs (Some "shirts") None (Some 2) false true false.

(** What the setup has in hand for [args] on [batch_world run_state]. *)
Definition setup_of (run_state : dict) : Setup :=
  let out := Path "/sim" /: "shirts" /: "random_body" in
  MkSetup system_json "shirts"
    (Path "/data" /: "shirts" /: "random_body" /: "data") out
    (out /: "dataset_properties_random_body.yaml") run_state.

(** Passes that report the dataset finished; the initial pass attempts
    three garments, the resim pass retries the one that failed. *)
Definition bx : BatchCollaborators := {|
  set_basic := λ p d c t, (Ok (<["data_folder" := PStr d]> p), t);
  merge := λ p _ _ c t, (Ok p, t);
  batch_sim := λ _ _ p _ _ _ _ c t,
    (Ok (true, <["fails" := PList [PStr "g2"]]> p, ["g1"; "g2"; "g3"]), t);
  resim_fails := λ _ _ p _ _ c t, (Ok (true, p, ["g2"]), t);
  add_sys_info := λ p c t, (Ok (<["system_info" := PStr "host"]> p), t);
  serialize := λ p f c t, write_file c t f (Ser (PDict p))
|}.

Definition shirt : dict := {[ "meta" := PDict {[ "upper" := PDict {[ "v" := PStr "Shirt" ]} ]} ]}.

(** A raw specification with an embedded design, and one without. *)
Definition spec_with_design : dict :=
  {[ "pattern" := PDict {[ "panels" := PDict ∅ ]}; "design" := PDict shirt ]}.
Definition spec_bare : dict := {[ "pattern" := PDict {[ "panels" := PDict ∅ ]} ]}.

End Demo.

(** ** Further notions used in the statements *)




(** Whenever the computation returns, what it returns satisfies [T]. *)
Definition returns {A} (T : A → Prop) (m : M A) : Prop :=
  ∀ w a w', m w = (Ok a, w') → T a.

(** None of the pipeline's collaborators ends the process: what they raise is
    an [Exception]. *)
Definition pipeline_raises_exceptions (ext : Collaborators) : Prop :=
  (∀ n b d sd f, raises_only (λ e, is_Exception e = true) (MetaGarment_serialize ext n b d sd f)) ∧
  (∀ pf n sd f, raises_only (λ e, is_Exception e = true) (VisPattern_serialize ext pf n sd f)) ∧
  (∀ b f, raises_only (λ e, is_Exception e = true) (body_save ext b f)) ∧
  (∀ a b c d, raises_only (λ e, is_Exception e = true) (PathCofig ext a b c d)) ∧
  (∀ p d, raises_only (λ e, is_Exception e = true) (BoxMesh_serialize ext p d)) ∧
  (∀ n d p, raises_only (λ e, is_Exception e = true) (run_sim ext n d p)) ∧
  (∀ a b, raises_only (λ e, is_Exception e = true) (export_glb ext a b)).


(** Every entry of [t] is still there in [t'], and directories are still
    directories. *)
Definition tree_grows (t t' : tree) : Prop :=
  ∀ k, (t !! k = Some Dir → t' !! k = Some Dir) ∧ (is_Some (t !! k) → is_Some (t' !! k)).


Definition is_raw (c : Call) : bool :=
  match c with
  | CallVisPattern _ => true
  | _ => false
  end.

(** The files of one pattern: all in [folder], all named after one stem. *)
Definition named_after (wp : bool) (files : SvgFiles) : Prop :=
  let '(folder, svg, png, pdf) := files in
  ∃ stem,
    svg = folder /: (stem +:+ "_pattern.svg") ∧
    png = folder /: (stem +:+ "_pattern.png") ∧
    pdf = if wp then Some (folder /: (stem +:+ "_print_pattern.pdf")) else None.

Definition response_files (resp : GenerateSVGResponse) : SvgFiles :=
  (svg_output_dir resp, svg_file_path resp, png_file_path resp, printable_pdf_path resp).

(** * Properties *)

(** ** The file system *)

Section FileSystemFacts.

Implicit Types (t : tree) (r k cur cs : list string).

Lemma remove_subtree_lookup r t k :
  remove_subtree r t !! k = if decide (r `prefix_of` k) then None else t !! k.
Proof.
  unfold remove_subtree. rewrite map_lookup_filter.
  destruct (t !! k) as [n|] eqn:E; simpl.
  - case_decide; case_guard; simpl in *; try done; tauto.
  - by case_decide.
Qed.

Lemma remove_subtree_outside r t k :
  ¬ r `prefix_of` k → remove_subtree r t !! k = t !! k.
Proof. intros H. rewrite remove_subtree_lookup. by case_decide. Qed.

Lemma remove_subtree_inside r t k :
  r `prefix_of` k → remove_subtree r t !! k = None.
Proof. intros H. rewrite remove_subtree_lookup. by case_decide. Qed.

Lemma remove_subtree_idemp r t :
  remove_subtree r (remove_subtree r t) = remove_subtree r t.
Proof.
  apply map_eq. intros k. rewrite !remove_subtree_lookup. by case_decide.
Qed.

Lemma node_at_remove_subtree r t k n :
  node_at (remove_subtree r t) k = Some n → node_at t k = Some n.
Proof.
  destruct k as [|c k]; simpl; [done|].
  rewrite remove_subtree_lookup. by case_decide.
Qed.

Lemma is_dir_remove_subtree r t k :
  is_dir (remove_subtree r t) k = true → is_dir t k = true.
Proof.
  unfold is_dir. destruct (node_at (remove_subtree r t) k) as [n|] eqn:E; [|done].
  apply node_at_remove_subtree in E. rewrite E. done.
Qed.

(** Whatever still resolves after a removal resolved to the same place
    before. *)
Lemma walk_remove_subtree r t cs : ∀ cur res,
  walk (remove_subtree r t) cur cs = Some res → walk t cur cs = Some res.
Proof.
  induction cs as [|c cs IH]; intros cur res; simpl; [done|].
  destruct (is_dir (remove_subtree r t) cur) eqn:D; [|done].
  rewrite (is_dir_remove_subtree _ _ _ D).
  destruct (String.eqb c ".."); apply IH.
Qed.

Lemma walk_app t cs1 cs2 : ∀ cur,
  walk t cur (cs1 ++ cs2) =
  match walk t cur cs1 with
  | Some r => walk t r cs2
  | None => None
  end.
Proof.
  induction cs1 as [|c cs1 IH]; intros cur; simpl; [done|].
  destruct (is_dir t cur); [|done].
  destruct (String.eqb c ".."); apply IH.
Qed.

(** Below a removed directory nothing is left to find. *)
Lemma rglob_removed c t p r pat :
  resolve c t p = Some r →
  rglob c (remove_subtree r t) p pat = [].
Proof.
  intros Hr. unfold rglob.
  destruct (resolve c (remove_subtree r t) p) as [r'|] eqn:Hr'; [|done].
  apply walk_remove_subtree in Hr'. unfold resolve in Hr. rewrite Hr in Hr'.
  injection Hr' as <-.
  destruct (is_dir (remove_subtree r t) r); [|done].
  apply elem_of_nil_inv. intros q Hq.
  apply list_elem_of_omap in Hq as [[k n] [Hin Hsome]].
  apply elem_of_map_to_list in Hin. simpl in Hsome.
  case_bool_decide as Hp; simpl in Hsome; [|done].
  rewrite remove_subtree_inside in Hin; done.
Qed.

Lemma rglob_absent c t p pat :
  path_exists c t p = false → rglob c t p pat = [].
Proof.
  unfold path_exists, rglob, is_dir. intros H.
  destruct (resolve c t p) as [r|]; [|done].
  destruct (node_at t r) as [n|]; [|done].
  by rewrite bool_decide_eq_false in H; destruct H.
Qed.

Lemma rglob_file c t p r x pat :
  resolve c t p = Some r → node_at t r = Some (File x) → rglob c t p pat = [].
Proof. unfold rglob, is_dir. by intros -> ->. Qed.

Lemma remove_below_lookup r t k :
  remove_below r t !! k = if decide (r `prefix_of` k ∧ k ≠ r) then None else t !! k.
Proof.
  unfold remove_below. rewrite map_lookup_filter.
  destruct (t !! k) as [n|] eqn:E; simpl.
  - case_decide; case_guard; simpl in *; try done; tauto.
  - by case_decide.
Qed.

Lemma remove_below_outside r t k :
  ¬ r `prefix_of` k → remove_below r t !! k = t !! k.
Proof. intros H. rewrite remove_below_lookup. case_decide; [tauto|done]. Qed.

Lemma remove_below_self r t : remove_below r t !! r = t !! r.
Proof. rewrite remove_below_lookup. case_decide; [tauto|done]. Qed.

Lemma delete_remove_below r t : delete r (remove_below r t) = remove_subtree r t.
Proof.
  apply map_eq. intros k. rewrite remove_subtree_lookup.
  destruct (decide (k = r)) as [->|Hk].
  - rewrite lookup_delete_eq. by case_decide.
  - rewrite lookup_delete_ne by done. rewrite remove_below_lookup.
    repeat case_decide; try done; tauto.
Qed.

Lemma entries_below_remove_below r t : entries_below r (remove_below r t) = ∅.
Proof.
  apply map_eq. intros k. unfold entries_below.
  rewrite map_lookup_filter, lookup_empty, remove_below_lookup.
  case_decide; [done|]. destruct (t !! k); simpl; [|done]. by case_guard.
Qed.

Lemma node_at_remove_below r t k n :
  node_at (remove_below r t) k = Some n → node_at t k = Some n.
Proof.
  destruct k as [|c k]; simpl; [done|].
  rewrite remove_below_lookup. by case_decide.
Qed.

Lemma is_dir_remove_below r t k :
  is_dir (remove_below r t) k = true → is_dir t k = true.
Proof.
  unfold is_dir. destruct (node_at (remove_below r t) k) as [n|] eqn:E; [|done].
  apply node_at_remove_below in E. rewrite E. done.
Qed.

Lemma walk_remove_below r t cs : ∀ cur res,
  walk (remove_below r t) cur cs = Some res → walk t cur cs = Some res.
Proof.
  induction cs as [|c cs IH]; intros cur res; simpl; [done|].
  destruct (is_dir (remove_below r t) cur) eqn:D; [|done].
  rewrite (is_dir_remove_below _ _ _ D).
  destruct (String.eqb c ".."); apply IH.
Qed.

(** Below an emptied directory nothing is left to find. *)
Lemma rglob_emptied c t p r pat :
  resolve c t p = Some r →
  rglob c (remove_below r t) p pat = [].
Proof.
  intros Hr. unfold rglob.
  destruct (resolve c (remove_below r t) p) as [r'|] eqn:Hr'; [|done].
  apply walk_remove_below in Hr'. unfold resolve in Hr. rewrite Hr in Hr'.
  injection Hr' as <-.
  destruct (is_dir (remove_below r t) r); [|done].
  apply elem_of_nil_inv. intros q Hq.
  apply list_elem_of_omap in Hq as [[k n] [Hin Hsome]].
  apply elem_of_map_to_list in Hin. simpl in Hsome.
  case_bool_decide as Hp; simpl in Hsome; [|done].
  case_bool_decide as Hk; simpl in Hsome; [done|].
  rewrite remove_below_lookup in Hin. case_decide; [done|]. tauto.
Qed.

(** What [rmtree] does to a directory: it goes with all that is below it,
    or, where the last step fails, it stays and is empty. *)
Lemma rmtree_dir c t p r :
  resolve c t p = Some r → node_at t r = Some Dir →
  (rmtree c t p = (Ok (), remove_subtree r t) ∧ r ≠ [] ∧
   resolve c (remove_below r t) p = Some r) ∨
  (∃ e, rmtree c t p = (Raise e, remove_below r t) ∧ is_Exception e = true ∧
        (resolve c (remove_below r t) p = None ∨ r = [])).
Proof.
  intros R N. unfold rmtree. rewrite R, N. unfold rmdir.
  destruct (resolve c (remove_below r t) p) as [r'|] eqn:R'.
  - pose proof R' as R''. apply walk_remove_below in R''.
    unfold resolve in R. rewrite R in R''. injection R'' as <-.
    assert (node_at (remove_below r t) r = Some Dir) as ->.
    { destruct r; [done|]. simpl in *. by rewrite remove_below_self. }
    destruct r as [|x r].
    + right. eexists. split; [done|]. split; [done|]. by right.
    + rewrite entries_below_remove_below, map_to_list_empty.
      left. by rewrite delete_remove_below.
  - right. eexists. split; [done|]. split; [done|]. by left.
Qed.

End FileSystemFacts.

(** ** The session store *)

Section SessionStore.

Lemma split_on_no_slash s : contains "/" s = false → split_on slash s = [s].
Proof.
  induction s as [|c s IH]; [done|].
  cbn [split_on contains starts_with].
  rewrite (Ascii.eqb_sym "/" c). fold slash.
  destruct (Ascii.eqb c slash); [done|].
  cbn [andb orb]. intros H. by rewrite (IH H).
Qed.

Lemma Path_plain s : plain_name s = true → Path s = MkPath false [s].
Proof.
  unfold plain_name. rewrite !andb_true_iff, !negb_true_iff.
  intros [[Hseg Hdd] Hsl]. unfold Path. rewrite (split_on_no_slash _ Hsl).
  simpl. rewrite Hseg. f_equal.
  destruct s as [|c s]; [done|]. simpl in Hsl.
  destruct (Ascii.eqb c slash) eqn:E; [|done].
  apply Ascii.eqb_eq in E as ->. done.
Qed.

Lemma join_plain p s :
  plain_name s = true → p /: s = MkPath (absolute p) (parts p ++ [s]).
Proof. intros H. unfold join. by rewrite (Path_plain _ H). Qed.

(** The directory of a plain session identifier is the child of that name
    of the directory the root resolves to. *)
Lemma resolve_join_plain c t p s :
  plain_name s = true →
  resolve c t (p /: s) =
  match resolve c t p with
  | Some r => if is_dir t r then Some (r ++ [s]) else None
  | None => None
  end.
Proof.
  intros H. rewrite (join_plain _ _ H). unfold resolve. simpl.
  rewrite walk_app. destruct (walk t _ (parts p)) as [r|]; [|done].
  simpl. destruct (is_dir t r); [|done].
  unfold plain_name in H. rewrite !andb_true_iff, !negb_true_iff in H.
  destruct H as [[_ ->] _]. done.
Qed.

Lemma cleanup_3d_unfold self sid :
  GarmentTo3DService_cleanup_session self sid = remove_if_present (output_root self /: sid).
Proof. reflexivity. Qed.

Lemma cleanup_svg_unfold self sid :
  GarmentSVGService_cleanup_session self sid
  = remove_if_present (svg_output_root self /: sid).
Proof. reflexivity. Qed.


(** What a call does to the world: nothing, or the subtree goes, or (where
    the last step of [rmtree] fails) what is below the directory goes. *)
Lemma remove_if_present_cases p w :
  (remove_if_present p w).2 = w ∨
  ∃ r, resolve (cwd w) (fs w) p = Some r ∧
       ((remove_if_present p w = (Ok (), set_fs w (remove_subtree r (fs w))) ∧ r ≠ []) ∨
        (∃ e, remove_if_present p w = (Raise e, set_fs w (remove_below r (fs w))) ∧
              is_Exception e = true ∧
              (resolve (cwd w) (remove_below r (fs w)) p = None ∨ r = []))).
Proof.
  unfold remove_if_present, bind, exists_, on_fs, ret.
  destruct (path_exists (cwd w) (fs w) p) eqn:E; [|by left].
  destruct (resolve (cwd w) (fs w) p) as [r|] eqn:R.
  - destruct (node_at (fs w) r) as [[|x]|] eqn:N.
    + right. exists r. split; [done|].
      destruct (rmtree_dir _ _ _ _ R N) as [(-> & Hne & _)|(e & -> & He & Hc)].
      * by left.
      * right. by exists e.
    + left. unfold rmtree. rewrite R, N. by destruct w.
    + left. unfold rmtree. rewrite R, N. by destruct w.
  - left. unfold rmtree. rewrite R. by destruct w.
Qed.



Lemma rglob_after_remove p pat w :
  let w1 := (remove_if_present p w).2 in
  rglob (cwd w1) (fs w1) p pat = [].
Proof.
  simpl. unfold remove_if_present, bind, exists_, on_fs, ret.
  destruct (path_exists (cwd w) (fs w) p) eqn:E; simpl.
  - unfold path_exists in E.
    destruct (resolve (cwd w) (fs w) p) as [r|] eqn:R; [|done].
    destruct (node_at (fs w) r) as [[|x]|] eqn:N.
    + destruct (rmtree_dir _ _ _ _ R N) as [(-> & _)|(e & -> & _)]; simpl.
      * by apply rglob_removed.
      * by apply rglob_emptied.
    + unfold rmtree. rewrite R, N. simpl. by apply (rglob_file _ _ _ r x).
    + by rewrite bool_decide_eq_true in E; destruct E.
  - by apply rglob_absent.
Qed.

(** Removing the session directory of [sid] below a root that resolves to
    [root_r] touches the keys below [root_r ++ [sid]] and nothing else. *)
Lemma remove_if_present_frame root sid w root_r :
  plain_name sid = true →
  resolve (cwd w) (fs w) root = Some root_r →
  let w1 := (remove_if_present (root /: sid) w).2 in
  cwd w1 = cwd w ∧ calls w1 = calls w ∧
  ∀ k, ¬ (root_r ++ [sid]) `prefix_of` k → fs w1 !! k = fs w !! k.
Proof.
  intros Hp Hr. simpl.
  destruct (remove_if_present_cases (root /: sid) w)
    as [->|(r & R & [[-> _]|(e & -> & _)])]; [done| |];
    (simpl; split; [done|]; split; [done|]; intros k Hk;
     rewrite (resolve_join_plain _ _ _ _ Hp), Hr in R;
     destruct (is_dir (fs w) root_r); [|done]; injection R as <-).
  - by apply remove_subtree_outside.
  - by apply remove_below_outside.
Qed.

Lemma sibling_not_below (root_r : list string) (sid sid' : string) k :
  sid ≠ sid' → (root_r ++ [sid']) `prefix_of` k → ¬ (root_r ++ [sid]) `prefix_of` k.
Proof.
  intros Hne [k1 ->] [k2 H]. rewrite <- !app_assoc in H.
  apply app_inv_head in H. simpl in H. congruence.
Qed.

Lemma root_not_below (root_r : list string) (sid : string) :
  ¬ (root_r ++ [sid]) `prefix_of` root_r.
Proof.
  intros H. apply prefix_length in H. rewrite length_app in H. simpl in H. lia.
Qed.

End SessionStore.



(** C10, as amended: for a session identifier that is one plain path
    component, [cleanup_session] changes only the entries at and below that
    session's directory [root/sid].  The directory and every artifact of any
    other plain session identifier stay as they were, and so does the
    directory the output root resolves to. *)
Theorem cleanup_session_frame
    (s3 : GarmentTo3DService) (sv : GarmentSVGService) (sid sid' : string) (w : World)
    (root3 rootv : list string) :
  plain_name sid = true → plain_name sid' = true → sid ≠ sid' →
  resolve (cwd w) (fs w) (output_root s3) = Some root3 →
  resolve (cwd w) (fs w) (svg_output_root sv) = Some rootv →
  (let w1 := (GarmentTo3DService_cleanup_session s3 sid w).2 in
   (∀ k, ¬ (root3 ++ [sid]) `prefix_of` k → fs w1 !! k = fs w !! k) ∧
   (∀ r' k, resolve (cwd w) (fs w) (output_root s3 /: sid') = Some r' →
            r' `prefix_of` k → fs w1 !! k = fs w !! k) ∧
   fs w1 !! root3 = fs w !! root3) ∧
  (let w1 := (GarmentSVGService_cleanup_session sv sid w).2 in
   (∀ k, ¬ (rootv ++ [sid]) `prefix_of` k → fs w1 !! k = fs w !! k) ∧
   (∀ r' k, resolve (cwd w) (fs w) (svg_output_root sv /: sid') = Some r' →
            r' `prefix_of` k → fs w1 !! k = fs w !! k) ∧
   fs w1 !! rootv = fs w !! rootv).
Proof.
  intros Hp Hp' Hne H3 Hv.
  rewrite cleanup_3d_unfold, cleanup_svg_unfold.
  split.
  - destruct (remove_if_present_frame _ _ _ _ Hp H3) as (_ & _ & F).
    split; [exact F|]. split.
    + intros r' k R Hk. apply F.
      rewrite (resolve_join_plain _ _ _ _ Hp'), H3 in R.
      destruct (is_dir (fs w) root3); [|done]. injection R as <-.
      by apply (sibling_not_below _ sid sid').
    + apply F, root_not_below.
  - destruct (remove_if_present_frame _ _ _ _ Hp Hv) as (_ & _ & F).
    split; [exact F|]. split.
    + intros r' k R Hk. apply F.
      rewrite (resolve_join_plain _ _ _ _ Hp'), Hv in R.
      destruct (is_dir (fs w) rootv); [|done]. injection R as <-.
      by apply (sibling_not_below _ sid sid').
    + apply F, root_not_below.
Qed.

Lemma cleanup_session_frame_witness :
  let w1 := (GarmentTo3DService_cleanup_session Demo.service "a" Demo.world0).2 in
  fs w1 !! ["srv"; "tmp_3d_service"; "b"; "skirt_sim.glb"] = Some Demo.glb ∧
  fs w1 !! ["srv"; "tmp_3d_service"] = Some Dir ∧
  fs w1 !! ["srv"; "tmp_3d_service"; "a"; "shirt_sim.glb"] = None.
Proof.
  destruct (cleanup_session_frame Demo.service Demo.svg_service "a" "b" Demo.world0
              ["srv"; "tmp_3d_service"] ["srv"; "tmp_svg_service"])
    as [(_ & Other & Root) _]; try (vm_compute; reflexivity).
  { intros E. discriminate E. }
  simpl. split; [|split].
  - rewrite (Other ["srv"; "tmp_3d_service"; "b"] _); [|vm_compute; reflexivity|].
    + vm_compute; reflexivity.
    + by exists ["skirt_sim.glb"].
  - rewrite Root. vm_compute; reflexivity.
  - vm_compute; reflexivity.
Defined.

(** C10, as stated, fails: the identifier ["."] names the output root
    itself, so cleaning it up removes the root and, with it, the directory
    and the artifact of the other session ["b"]. *)
Lemma cleanup_session_dot_removes_root :
  let w1 := (GarmentTo3DService_cleanup_session Demo.service "." Demo.world0).2 in
  "." ≠ "b" ∧
  fs Demo.world0 !! ["srv"; "tmp_3d_service"; "b"; "skirt_sim.glb"] = Some Demo.glb ∧
  fs w1 !! ["srv"; "tmp_3d_service"; "b"; "skirt_sim.glb"] = None ∧
  fs Demo.world0 !! ["srv"; "tmp_3d_service"] = Some Dir ∧
  fs w1 !! ["srv"; "tmp_3d_service"] = None.
Proof.
  split; [intros E; discriminate E|]. vm_compute. repeat split.
Qed.

(** ** Call traces *)

Section Traces.

Context {A B : Type}.
Implicit Types (P Q : Call → Prop).

Lemma emits_ret P (a : A) : emits P (ret a).
Proof. intros w. exists []. by rewrite app_nil_r. Qed.

Lemma emits_raise P e : emits P (raise e : M A).
Proof. intros w. exists []. by rewrite app_nil_r. Qed.

Lemma emits_lift P (r : Res A) : emits P (lift r).
Proof. intros w. exists []. by rewrite app_nil_r. Qed.

Lemma emits_on_fs P (f : Ext A) : emits P (on_fs f).
Proof.
  intros w. exists []. unfold on_fs. destruct (f (cwd w) (fs w)).
  by rewrite app_nil_r.
Qed.

Lemma emits_call_log P (c : Res A → Call) (f : Ext A) :
  (∀ r, P (c r)) → emits P (call_log c f).
Proof.
  intros H w. unfold call_log. destruct (f (cwd w) (fs w)) as [r t].
  exists [c r]. split; [done|]. by constructor.
Qed.

Lemma emits_call P (c : Call) (f : Ext A) : P c → emits P (call c f).
Proof. intros H. by apply emits_call_log. Qed.

Lemma emits_bind P (m : M A) (k : A → M B) :
  emits P m → (∀ a, emits P (k a)) → emits P (bind m k).
Proof.
  intros Hm Hk w. unfold bind. destruct (Hm w) as (l1 & E1 & F1).
  destruct (m w) as [[a|e] w1]; simpl in *.
  - destruct (Hk a w1) as (l2 & E2 & F2). exists (l1 ++ l2).
    rewrite E2, E1, app_assoc. split; [done|]. by apply Forall_app.
  - by exists l1.
Qed.

Lemma emits_try P (m : M A) (h : exn → M A) :
  emits P m → (∀ e, emits P (h e)) → emits P (try_except m h).
Proof.
  intros Hm Hh w. unfold try_except. destruct (Hm w) as (l1 & E1 & F1).
  destruct (m w) as [[a|e] w1]; simpl in *; [by exists l1|].
  destruct (is_Exception e); [|by exists l1].
  destruct (Hh e w1) as (l2 & E2 & F2). exists (l1 ++ l2).
  rewrite E2, E1, app_assoc. split; [done|]. by apply Forall_app.
Qed.

Lemma emits_weaken P Q (m : M A) : (∀ c, P c → Q c) → emits P m → emits Q m.
Proof.
  intros H Hm w. destruct (Hm w) as (l & E & F). exists l. split; [done|].
  eapply Forall_impl; eauto.
Qed.

End Traces.

Lemma emits_exists P p : emits P (exists_ p).
Proof. intros w. exists []. by rewrite app_nil_r. Qed.

Lemma emits_rglob P p pat : emits P (rglob_ p pat).
Proof. intros w. exists []. by rewrite app_nil_r. Qed.

Lemma emits_Properties P f : emits P (Properties f).
Proof.
  intros w. exists []. unfold Properties.
  destruct (read_file _ _ _) as [[[]|]|]; by rewrite app_nil_r.
Qed.

Create HintDb emits discriminated.
#[local] Hint Resolve emits_ret emits_raise emits_lift emits_on_fs emits_exists
  emits_rglob emits_Properties : emits.

(** Step through a computation, one construct at a time; calls are left to
    the caller. *)
Ltac emits_step :=
  cbv beta;
  match goal with
  | |- emits _ (bind _ _) => apply emits_bind; [|intros ?]
  | |- emits _ (try_except _ _) => apply emits_try; [|intros ?]
  | |- emits _ (call _ _) => apply emits_call
  | |- emits _ (call_log _ _) => apply emits_call_log; intros ?
  | |- emits _ (match ?x with (_, _) => _ end) => destruct x
  | |- emits _ (match ?x with Some _ => _ | None => _ end) => destruct x
  | |- emits _ (if ?b then _ else _) => destruct b
  | |- emits _ _ => solve [auto with emits]
  end.

(** ** Artifact download and request validation *)

Section Endpoints.

Lemma try_except_raise_world {A} (m : M A) (f : exn → exn) w :
  (try_except m (λ e, raise (f e)) w).2 = (m w).2.
Proof.
  unfold try_except, raise. destruct (m w) as [[a|e] w']; [done|].
  by destruct (is_Exception e).
Qed.

Lemma bind_ret_world {A B} (m : M A) (b : B) w :
  ((m ;; ret b) w).2 = (m w).2.
Proof. unfold bind, ret. by destruct (m w) as [[a|e] w']. Qed.

Lemma cleanup_endpoint_world mean_all props sid w :
  (garment_3d_service.cleanup_session mean_all props sid w).2
  = (remove_if_present (Path "./tmp_3d_service" /: sid) w).2.
Proof.
  unfold garment_3d_service.cleanup_session.
  by rewrite (try_except_raise_world _ (λ e, HTTPException 500 (StrOf e))), bind_ret_world.
Qed.

Lemma api_cleanup_endpoint_world mean_all props sid w :
  (api_garment_3d_service.cleanup_session mean_all props sid w).2
  = (remove_if_present (Path "./tmp_3d_service" /: sid) w).2.
Proof.
  unfold api_garment_3d_service.cleanup_session.
  by rewrite (try_except_raise_world _ (λ e, HTTPException 500 (StrOf e))), bind_ret_world.
Qed.

Lemma api_cleanup_svg_endpoint_world mean_all sid w :
  (api_garment_3d_service.cleanup_svg_session mean_all sid w).2
  = (remove_if_present (Path "./tmp_svg_service" /: sid) w).2.
Proof.
  unfold api_garment_3d_service.cleanup_svg_session.
  by rewrite (try_except_raise_world _ (λ e, HTTPException 500 (StrOf e))), bind_ret_world.
Qed.

End Endpoints.

(** C4: the code does not do what the claim says.  After [cleanup_session]
    the download handlers find no artifact and raise their 404, but the
    [except Exception] clause around the handler body catches that very
    exception and raises a 500 in its place: the caller receives status 500,
    with the 404 only as text in the detail.  This holds for every session
    identifier and every state of the file system. *)
Theorem download_after_cleanup_is_500
    (mean_all : BodyParameters) (props : dict) (sid : string) (w : World) :
  (let w1 := (garment_3d_service.cleanup_session mean_all props sid w).2 in
   garment_3d_service.download_glb sid w1 = (Raise (not_found "GLB file not found"), w1)) ∧
  (let w1 := (api_garment_3d_service.cleanup_session mean_all props sid w).2 in
   api_garment_3d_service.download_glb sid w1
   = (Raise (not_found "GLB file not found"), w1)) ∧
  (let w1 := (api_garment_3d_service.cleanup_svg_session mean_all sid w).2 in
   api_garment_3d_service.download_svg sid w1
   = (Raise (not_found "SVG file not found"), w1) ∧
   api_garment_3d_service.download_png sid w1
   = (Raise (not_found "PNG file not found"), w1) ∧
   api_garment_3d_service.download_pdf sid w1
   = (Raise (not_found "PDF file not found"), w1)).
Proof.
  simpl. rewrite cleanup_endpoint_world, api_cleanup_endpoint_world,
    api_cleanup_svg_endpoint_world.
  unfold garment_3d_service.download_glb, api_garment_3d_service.download_glb,
    api_garment_3d_service.download_svg, api_garment_3d_service.download_png,
    api_garment_3d_service.download_pdf, try_except, bind, rglob_.
  rewrite !rglob_after_remove. done.
Qed.

(** C7: the code does not do what the claim says at the HTTP boundary.  The
    endpoint raises a 400 for a request with neither input form, inside the
    [try] whose [except Exception] turns it into a 500.  No session comes to
    exist: the world, and with it the file system and the token counter, is
    unchanged.  The service method itself raises [ValueError] before it
    creates any directory. *)
Theorem generate_svg_without_input_is_500
    (ext : Collaborators) (mean_all : BodyParameters) (self : GarmentSVGService)
    (body_params : option dict) (with_text view_ids with_printable : bool)
    (sid : string) (w : World) :
  api_garment_3d_service.generate_svg ext mean_all
    (api_garment_3d_service.MkGenerateSVGRequest None None body_params
       with_text view_ids with_printable) w
  = (Raise (HTTPException 500
              (detail_with_traceback "Error in SVG generation: "
                 (HTTPException 400
                    (Lit "Either pattern_specification or design_params must be provided")))),
     w) ∧
  GarmentSVGService_generate_svg ext self None None sid body_params
    with_text view_ids with_printable w
  = (Raise (ValueError (Lit "Either design_params or pattern_specification must be provided")),
     w).
Proof. split; reflexivity. Qed.

(** ** The pipeline facade *)

Section Facade.

Variable ext : Collaborators.

Lemma design_params_emits P design sd body wt vi wp :
  P (CallMetaGarment "SVG_Pattern" (params body) design) →
  (∀ f, P (CallBodySave (params body) f)) →
  emits P (_generate_svg_from_design_params ext design sd body wt vi wp).
Proof.
  intros H1 H2. unfold _generate_svg_from_design_params.
  repeat emits_step; auto.
Qed.

Lemma load_pattern_spec_emits P spec sd body pn wt vi wp :
  (∀ f, P (CallVisPattern f)) →
  (∀ f, P (CallBodySave (params body) f)) →
  emits P (load_pattern_spec ext spec sd body pn wt vi wp).
Proof.
  intros H1 H2. unfold load_pattern_spec.
  repeat emits_step; auto.
Qed.

Lemma pattern_spec_emits P spec sd body pn wt vi wp :
  (∀ f, P (CallVisPattern f)) →
  (∀ d, P (CallMetaGarment "SVG_Pattern" (params body) d)) →
  (∀ f, P (CallBodySave (params body) f)) →
  emits P (_generate_svg_from_pattern_spec ext spec sd body pn wt vi wp).
Proof.
  intros H1 H2 H3. unfold _generate_svg_from_pattern_spec.
  apply emits_try; [by apply load_pattern_spec_emits|]. intros e.
  destruct (spec !! "design"); [by apply design_params_emits|].
  apply emits_raise.
Qed.

(** The parametric path starts by calling the pattern compiler. *)
Lemma design_params_first_call design sd body wt vi wp w :
  ∃ rest,
    calls (_generate_svg_from_design_params ext design sd body wt vi wp w).2
    = calls w ++ CallMetaGarment "SVG_Pattern" (params body) design :: rest.
Proof.
  unfold _generate_svg_from_design_params.
  rewrite (try_except_raise_world _ (λ e, e)).
  unfold bind at 1, call at 1, call_log at 1.
  destruct (MetaGarment_serialize ext _ _ _ _ _ _ _) as [[[folder nm]|e] t]; simpl.
  - match goal with
    | |- ∃ _, calls (?m ?w1).2 = _ =>
        assert (emits (λ _, True) m) as Hm by (repeat emits_step; auto);
        destruct (Hm w1) as (l & E & _)
    end.
    exists l. etrans; [exact E|]. simpl. by rewrite <- app_assoc.
  - exists []. done.
Qed.

End Facade.

(** C6: when the load-and-serialize attempt on a Raw Pattern Specification
    raises an exception, the outcome is decided by the ['design'] entry of
    the specification.  If it is there, the result is that of the parametric
    path run on the embedded Design Specification, from the state the failed
    attempt left, and the pattern compiler is called with it; if it is not,
    the caller gets an exception that carries the original error and nothing
    more is called.  The failed attempt itself never calls the pattern
    compiler. *)
Theorem raw_spec_fallback
    (ext : Collaborators) (spec : dict) (sd : PurePath) (body : BodyParameters)
    (pn : string) (wt vi wp : bool) (w w1 : World) (e : exn) :
  load_pattern_spec ext spec sd body pn wt vi wp w = (Raise e, w1) →
  is_Exception e = true →
  let out := _generate_svg_from_pattern_spec ext spec sd body pn wt vi wp w in
  (∃ l, calls w1 = calls w ++ l ∧ Forall (λ c, is_parametric c = false) l) ∧
  match spec !! "design" with
  | Some design =>
      out = _generate_svg_from_design_params ext design sd body wt vi wp w1 ∧
      ∃ rest, calls out.2
              = calls w1 ++ CallMetaGarment "SVG_Pattern" (params body) design :: rest
  | None =>
      out = (Raise (Exception_ (Cat (Lit "Could not process pattern specification: ")
                                    (StrOf e))), w1)
  end.
Proof.
  intros Hload He. simpl. split.
  - pose proof (load_pattern_spec_emits ext (λ c, is_parametric c = false)
                  spec sd body pn wt vi wp) as Hem.
    specialize (Hem (λ _, eq_refl) (λ _, eq_refl) w). by rewrite Hload in Hem.
  - unfold _generate_svg_from_pattern_spec, try_except. rewrite Hload, He.
    destruct (spec !! "design") as [design|]; [|done].
    split; [done|]. apply design_params_first_call.
Qed.

Lemma raw_spec_fallback_witness :
  let sd := Path "./tmp_svg_service" /: "a" in
  let folder := sd /: "SVG_Pattern" in
  (_generate_svg_from_pattern_spec Demo.ext_raw_fails Demo.spec_with_design sd
     Demo.mean_all "user_pattern_svg" true true false Demo.world0).1
  = Ok (folder, folder /: "SVG_Pattern_pattern.svg", folder /: "SVG_Pattern_pattern.png", None) ∧
  (_generate_svg_from_pattern_spec Demo.ext_raw_fails Demo.spec_bare sd
     Demo.mean_all "user_pattern_svg" true true false Demo.world0).1
  = Raise (Exception_ (Cat (Lit "Could not process pattern specification: ")
                           (StrOf (Foreign "VisPattern")))).
Proof.
  intros sd folder. split.
  - destruct (raw_spec_fallback Demo.ext_raw_fails Demo.spec_with_design sd
                Demo.mean_all "user_pattern_svg" true true false Demo.world0
                (load_pattern_spec Demo.ext_raw_fails Demo.spec_with_design sd
                   Demo.mean_all "user_pattern_svg" true true false Demo.world0).2
                (Foreign "VisPattern")) as [_ H];
      [vm_compute; reflexivity | reflexivity |].
    assert (Demo.spec_with_design !! "design" = Some (PDict Demo.shirt)) as L
      by (vm_compute; reflexivity).
    rewrite L in H. destruct H as [-> _]. vm_compute. reflexivity.
  - destruct (raw_spec_fallback Demo.ext_raw_fails Demo.spec_bare sd
                Demo.mean_all "user_pattern_svg" true true false Demo.world0
                (load_pattern_spec Demo.ext_raw_fails Demo.spec_bare sd
                   Demo.mean_all "user_pattern_svg" true true false Demo.world0).2
                (Foreign "VisPattern")) as [_ H];
      [vm_compute; reflexivity | reflexivity |].
    assert (Demo.spec_bare !! "design" = None) as L by (vm_compute; reflexivity).
    rewrite L in H. rewrite H. reflexivity.
Defined.

(** C8, as amended: the 2D entry point, [GarmentSVGService.generate_svg]
    served by [POST /generate_svg], accepts a request that supplies both
    input forms and processes it using the Raw Pattern Specification; the
    Design Specification is ignored.  The service method gives what it gives
    for the same request without the Design Specification, for every Raw
    Pattern Specification.  So does the endpoint when the Raw Pattern
    Specification is a non-empty mapping; when it is the empty mapping, the
    answer of the endpoint still does not depend on which non-empty Design
    Specification came with it. *)
Theorem both_forms_raw_spec_wins
    (ext : Collaborators) (self : GarmentSVGService) (mean_all : BodyParameters)
    (design design' spec : dict) (sid : string) (body_params : option dict)
    (wt vi wp : bool) (w : World) :
  GarmentSVGService_generate_svg ext self (Some design) (Some spec) sid body_params wt vi wp w
  = GarmentSVGService_generate_svg ext self None (Some spec) sid body_params wt vi wp w ∧
  (truthy (PDict spec) = true →
   api_garment_3d_service.generate_svg ext mean_all
     (api_garment_3d_service.MkGenerateSVGRequest (Some spec) (Some design) body_params
        wt vi wp) w
   = api_garment_3d_service.generate_svg ext mean_all
       (api_garment_3d_service.MkGenerateSVGRequest (Some spec) None body_params
          wt vi wp) w) ∧
  (truthy (PDict design) = true → truthy (PDict design') = true →
   api_garment_3d_service.generate_svg ext mean_all
     (api_garment_3d_service.MkGenerateSVGRequest (Some spec) (Some design) body_params
        wt vi wp) w
   = api_garment_3d_service.generate_svg ext mean_all
       (api_garment_3d_service.MkGenerateSVGRequest (Some spec) (Some design') body_params
          wt vi wp) w).
Proof.
  split; [reflexivity|]. split.
  - intros H. unfold api_garment_3d_service.generate_svg. simpl.
    unfold truthy in H. rewrite H. reflexivity.
  - intros H H'. unfold api_garment_3d_service.generate_svg. simpl.
    unfold truthy in H, H'. rewrite H, H'. cbn [negb]. rewrite !andb_false_r. reflexivity.
Qed.

Lemma both_forms_raw_spec_wins_witness :
  api_garment_3d_service.generate_svg Demo.ext Demo.mean_all
    (api_garment_3d_service.MkGenerateSVGRequest (Some Demo.spec_bare) (Some Demo.shirt)
       None true true false) Demo.world0
  = api_garment_3d_service.generate_svg Demo.ext Demo.mean_all
      (api_garment_3d_service.MkGenerateSVGRequest (Some Demo.spec_bare) None
         None true true false) Demo.world0 ∧
  api_garment_3d_service.generate_svg Demo.ext Demo.mean_all
    (api_garment_3d_service.MkGenerateSVGRequest (Some ∅) (Some Demo.shirt)
       None true true false) Demo.world0
  = api_garment_3d_service.generate_svg Demo.ext Demo.mean_all
      (api_garment_3d_service.MkGenerateSVGRequest (Some ∅) (Some Demo.spec_bare)
         None true true false) Demo.world0.
Proof.
  split.
  - apply (proj1 (proj2 (both_forms_raw_spec_wins Demo.ext Demo.svg_service Demo.mean_all
             Demo.shirt Demo.shirt Demo.spec_bare "s" None true true false Demo.world0))).
    vm_compute. reflexivity.
  - apply (proj2 (proj2 (both_forms_raw_spec_wins Demo.ext Demo.svg_service Demo.mean_all
             Demo.shirt Demo.spec_bare ∅ "s" None true true false Demo.world0)));
      vm_compute; reflexivity.
Defined.

(** C8, as stated, fails: a request with both a Design Specification and a
    Raw Pattern Specification is not rejected.  The endpoint answers with a
    session and its files, the session directory exists afterwards, and the
    only collaborator calls are those of the raw path. *)
Lemma both_forms_accepted :
  let request :=
    api_garment_3d_service.MkGenerateSVGRequest (Some Demo.spec_bare) (Some Demo.shirt)
      None true true false in
  let out := api_garment_3d_service.generate_svg Demo.ext Demo.mean_all request Demo.world0 in
  let sd := Path "./tmp_svg_service" /: "session-0" in
  let folder := sd /: "user_pattern_svg" in
  out.1 = Ok (MkGenerateSVGResponse "session-0"
                (folder /: "user_pattern_svg_pattern.svg")
                (folder /: "user_pattern_svg_pattern.png") folder None) ∧
  path_exists (cwd out.2) (fs out.2) sd = true ∧
  calls out.2 = [ CallVisPattern (sd /: "user_pattern_svg_specification.json");
                  CallBodySave (params Demo.mean_all) folder ].
Proof. vm_compute. repeat split. Qed.

(** ** The body profile *)

Lemma bind_lift_Ok {A B} (a : A) (k : A → M B) : bind (lift (Ok a)) k = k a.
Proof. reflexivity. Qed.


(** ** The batch driver *)

(** *** Exceptions of the code's own operations *)

Section OwnExceptions.

Context {A B : Type}.

Lemma raises_exceptions_ret (a : A) : raises_exceptions (ret a).
Proof. intros w e w' H. discriminate H. Qed.

Lemma raises_exceptions_bind (m : M A) (k : A → M B) :
  raises_exceptions m → (∀ a, raises_exceptions (k a)) → raises_exceptions (bind m k).
Proof.
  intros Hm Hk w e w'. unfold bind.
  destruct (m w) as [[a|e0] w1] eqn:E.
  - apply Hk.
  - intros [= <- <-]. by apply (Hm _ _ _ E).
Qed.

Lemma raises_exceptions_lift (r : Res A) :
  (∀ e, r = Raise e → is_Exception e = true) → raises_exceptions (lift r).
Proof. intros H w e w'. unfold lift. intros [= -> <-]. by apply H. Qed.

Lemma raises_exceptions_on_fs (f : Ext A) :
  raises_only (λ e, is_Exception e = true) f → raises_exceptions (on_fs f).
Proof.
  intros H w e w'. unfold on_fs.
  destruct (f (cwd w) (fs w)) as [r t] eqn:E. intros [= -> <-].
  by apply (H _ _ _ _ E).
Qed.

End OwnExceptions.

Lemma write_file_exn p x : raises_only (λ e, is_Exception e = true) (λ c t, write_file c t p x).
Proof.
  intros c t e t'. unfold write_file.
  destruct (resolve c t p); [destruct (node_at t _) as [[|?]|]|]; by intros [= <- <-].
Qed.

Lemma mkdir_parents_exn p : raises_only (λ e, is_Exception e = true) (λ c t, mkdir_parents c t p).
Proof.
  intros c t e t'. unfold mkdir_parents.
  destruct (mkdir_walk _ _ _) as [[? ?]|]; by intros [= <- <-].
Qed.

Lemma mkdir_exist_ok_exn p : raises_only (λ e, is_Exception e = true) (λ c t, mkdir_exist_ok c t p).
Proof.
  intros c t e t'. unfold mkdir_exist_ok.
  destruct (resolve c t p); [destruct (node_at t _) as [[|?]|]|]; by intros [= <- <-].
Qed.

Lemma read_file_exn c t p e : read_file c t p = Raise e → is_Exception e = true.
Proof.
  unfold read_file.
  destruct (resolve c t p); [destruct (node_at t _) as [[|?]|]|]; by intros [= <-].
Qed.

Lemma copy_exn src dst : raises_only (λ e, is_Exception e = true) (λ c t, copy c t src dst).
Proof.
  intros c t e t'. unfold copy.
  destruct (same_file _ _ _ _); [by intros [= <- <-]|].
  destruct (read_file c t src) as [x|e0] eqn:E.
  - apply write_file_exn.
  - intros [= <- <-]. by apply (read_file_exn _ _ _ _ E).
Qed.

Lemma raises_exceptions_for_each {A} (l : list A) (body : A → M unit) :
  (∀ x, raises_exceptions (body x)) → raises_exceptions (for_each l body).
Proof.
  intros H. induction l as [|x l IH]; simpl.
  - apply raises_exceptions_ret.
  - apply raises_exceptions_bind; auto.
Qed.

Lemma raises_exceptions_except_SameFileError (m : M unit) :
  raises_exceptions m → raises_exceptions (except_SameFileError m).
Proof.
  intros H w e w'. unfold except_SameFileError.
  destruct (m w) as [[u|e0] w1] eqn:E; [by intros [=]|].
  specialize (H _ _ _ E).
  destruct e0; intros [= <- <-]; done.
Qed.

Lemma raises_exceptions_Properties f : raises_exceptions (Properties f).
Proof.
  intros w e w'. unfold Properties.
  destruct (read_file _ _ _) as [[[]|]|e0] eqn:E; intros [= <- <-]; try done.
  by apply (read_file_exn _ _ _ _ E).
Qed.

Lemma raises_exceptions_exists p : raises_exceptions (exists_ p).
Proof. intros w e w' H. discriminate H. Qed.

Lemma raises_exceptions_rglob p pat : raises_exceptions (rglob_ p pat).
Proof. intros w e w' H. discriminate H. Qed.

Lemma getitem_exn d k e : getitem d k = Raise e → is_Exception e = true.
Proof. unfold getitem. destruct (d !! k); by intros [= <-]. Qed.

Lemma Path_of_exn v e : Path_of v = Raise e → is_Exception e = true.
Proof. destruct v; by intros [= <-]. Qed.

Lemma join_opt_exn p o e : join_opt p o = Raise e → is_Exception e = true.
Proof. destruct o; by intros [= <-]. Qed.

Lemma emits_for_each {A} P (l : list A) (body : A → M unit) :
  (∀ x, emits P (body x)) → emits P (for_each l body).
Proof.
  intros H. induction l as [|x l IH]; simpl.
  - apply emits_ret.
  - apply emits_bind; auto.
Qed.

Lemma emits_except_SameFileError P (m : M unit) :
  emits P m → emits P (except_SameFileError m).
Proof.
  intros H w. destruct (H w) as (l & E & F). exists l. split; [|done].
  unfold except_SameFileError. destruct (m w) as [[u|e] w1]; [done|].
  by destruct e.
Qed.

Lemma emits_nothing {A} (m : M A) w :
  emits (λ _, False) m → calls (m w).2 = calls w.
Proof.
  intros H. destruct (H w) as (l & -> & F).
  destruct l as [|c l]; [by rewrite app_nil_r|]. by inversion F.
Qed.

Lemma gather_renders_emits P p : emits P (gather_renders p).
Proof.
  unfold gather_renders. repeat emits_step.
  apply emits_for_each. intros x. apply emits_except_SameFileError. auto with emits.
Qed.

Lemma gather_renders_exn p : raises_exceptions (gather_renders p).
Proof.
  unfold gather_renders.
  apply raises_exceptions_bind;
    [apply raises_exceptions_on_fs, mkdir_exist_ok_exn|intros _].
  apply raises_exceptions_bind; [apply raises_exceptions_rglob|intros files].
  apply raises_exceptions_for_each. intros x.
  apply raises_exceptions_except_SameFileError, raises_exceptions_on_fs, copy_exn.
Qed.

Lemma main_setup_emits P args : emits P (main_setup args).
Proof.
  unfold main_setup. repeat emits_step.
Qed.

Lemma main_setup_exn args : raises_exceptions (main_setup args).
Proof.
  unfold main_setup.
  repeat first
    [ apply raises_exceptions_ret
    | apply raises_exceptions_Properties
    | apply raises_exceptions_exists
    | apply raises_exceptions_on_fs; first [apply mkdir_parents_exn | apply copy_exn]
    | apply raises_exceptions_lift;
      first [apply getitem_exn | apply Path_of_exn | apply join_opt_exn]
    | apply raises_exceptions_bind; [|intros ?]
    | match goal with |- raises_exceptions (if ?b then _ else _) => destruct b end ].
Qed.

Lemma exit_status_exn {A} e : is_Exception e = true → exit_status (Raise e : Res A) = 1.
Proof. by destruct e. Qed.

(** *** The shape of a run *)

Lemma phase_intro {A} (T : list Call → Res A → Prop) (m : M A) :
  (∀ w r w', m w = (r, w') → ∃ new, calls w' = calls w ++ new ∧ T new r) → phase T m.
Proof. intros H w. destruct (m w) as [r w'] eqn:E. by apply (H w). Qed.

Section RunShape.

Variable bx : BatchCollaborators.
Variable Q : exn → Prop.
Variable R : list string → Prop.
Hypothesis Q_own : ∀ e, is_Exception e = true → Q e.
Hypothesis Q_collaborators : collaborators_raise Q bx.
Hypothesis R_resim :
  ∀ dp op p rd c cw t finished p2 items t',
    resim_fails bx dp op p rd c cw t = (Ok (finished, p2, items), t') → R items.

Variable command_args : CommandArgs.
Variable s : Setup.

Lemma define_sim_props_phase :
  phase (λ new r, Forall (λ c, is_config c = true) new ∧ ∀ e, r = Raise e → Q e)
        (define_sim_props bx command_args s).
Proof.
  destruct Q_collaborators as (Hset & Hmerge & _).
  intros w. unfold define_sim_props, bind, call, call_log.
  destruct (set_basic bx _ _ _ _) as [[p|e] t] eqn:E; simpl.
  - destruct (config command_args) as [cfg|]; simpl.
    + unfold lift, getitem.
      destruct (system_config s !! "sim_configs_path") as [v|]; simpl.
      * destruct (Path_of v) as [scp|e] eqn:Ev; simpl.
        -- destruct (merge bx _ _ _ _ _) as [[p'|e] t'] eqn:Em; simpl;
             (eexists [CallSetBasic; CallMerge _ _]; rewrite <- app_assoc;
              split; [reflexivity|]; split; [by repeat constructor|]).
           ++ by intros e.
           ++ intros e' [= <-]. by apply (Hmerge _ _ _ _ _ _ _ Em).
        -- exists [CallSetBasic]. split; [done|]. split; [by repeat constructor|].
           intros e' [= <-]. by apply Q_own, (Path_of_exn _ _ Ev).
      * exists [CallSetBasic]. split; [done|]. split; [by repeat constructor|].
        intros e' [= <-]. by apply Q_own.
    + exists [CallSetBasic]. split; [done|]. split; [by repeat constructor|].
      by intros e.
  - exists [CallSetBasic]. split; [done|]. split; [by repeat constructor|].
    intros e' [= <-]. by apply (Hset _ _ _ _ _ _ E).
Qed.

Lemma main_loop_phase props :
  phase (λ new r,
           match r with
           | Ok (finished, p) =>
               ∃ items, new = [CallBatchSim (minibatch command_args)
                                 (Some (finished, p, items))]
           | Raise e => new = [CallBatchSim (minibatch command_args) None] ∧ Q e
           end)
        (main_loop bx command_args s props).
Proof.
  destruct Q_collaborators as (_ & _ & Hbatch & _).
  intros w. unfold main_loop, bind, call_log, ret.
  destruct (batch_sim bx _ _ _ _ _ _ _ _ _) as [[[[f p] items]|e] t] eqn:E; simpl;
    eexists; (split; [reflexivity|]).
  - by exists items.
  - split; [done|]. by apply (Hbatch _ _ _ _ _ _ _ _ _ _ _ E).
Qed.

Lemma try_resim_fails_once_phase (finished : bool) (props : dict) :
  phase (λ new r,
           if finished then
             match r with
             | Ok (f2, p2) =>
                 ∃ items, new = [CallResimFails (Some (f2, p2, items))] ∧ R items
             | Raise e => new = [CallResimFails None] ∧ Q e
             end
           else new = [] ∧ r = Ok (false, props))
        (try_resim_fails_once bx command_args s finished props).
Proof.
  destruct Q_collaborators as (_ & _ & _ & Hresim & _).
  intros w. unfold try_resim_fails_once. destruct finished.
  - unfold bind, call_log, ret.
    destruct (resim_fails bx _ _ _ _ _ _ _) as [[[[f p] items]|e] t] eqn:E; simpl;
      eexists; (split; [reflexivity|]).
    + exists items. split; [done|]. by apply (R_resim _ _ _ _ _ _ _ _ _ _ _ E).
    + split; [done|]. by apply (Hresim _ _ _ _ _ _ _ _ _ E).
  - exists []. by rewrite app_nil_r.
Qed.

Lemma finish_phase (finished : bool) (props : dict) :
  phase (tail_shape bx Q finished props (dataset_file s)) (finish bx s finished props).
Proof.
  destruct Q_collaborators as (_ & _ & _ & _ & Hinfo & Hser).
  apply phase_intro. intros w r w' H. unfold finish in H.
  unfold bind at 1, call at 1, call_log at 1 in H.
  destruct (add_sys_info bx _ _ _) as [[p3|e] t] eqn:E; simpl in H.
  - unfold bind at 1, call at 1, call_log at 1 in H; simpl in H.
    destruct (serialize bx _ _ _ _) as [[u|e] t'] eqn:Es; simpl in H.
    + unfold bind at 1 in H.
      match type of H with context [gather_renders ?p ?w1] =>
        pose proof (emits_nothing (gather_renders p) w1 (gather_renders_emits _ p)) as Hc;
        pose proof (gather_renders_exn p w1) as Hx;
        destruct (gather_renders p w1) as [[u'|e] w2]
      end; simpl in *.
      * exists [CallAddSysInfo props; CallSerialize p3 (dataset_file s)].
        destruct finished; injection H as <- <-;
          (split; [rewrite Hc, <- app_assoc; done|]).
        -- apply (tail_exit bx Q true props _ p3 _ _ _ E).
        -- apply (tail_exit bx Q false props _ p3 _ _ _ E).
      * injection H as <- <-.
        exists [CallAddSysInfo props; CallSerialize p3 (dataset_file s)].
        split; [rewrite Hc, <- app_assoc; done|].
        eapply tail_raised; [exact E|]. apply Q_own. by eapply Hx.
    + injection H as <- <-.
      exists [CallAddSysInfo props; CallSerialize p3 (dataset_file s)].
      split; [by rewrite <- app_assoc|].
      eapply tail_raised; [exact E|]. by apply (Hser _ _ _ _ _ _ Es).
  - injection H as <- <-. exists [CallAddSysInfo props]. split; [done|].
    apply tail_sys_info_raised. by apply (Hinfo _ _ _ _ _ E).
Qed.

Lemma main_run_frozen w :
  is_frozen (props s) = true → main_run bx command_args s w = (Raise (SystemExit 0), w).
Proof. intros H. unfold main_run. by rewrite H. Qed.

Lemma main_run_phase :
  is_frozen (props s) = false →
  phase (run_shape bx Q R (dataset_file s)) (main_run bx command_args s).
Proof.
  intros Hf w. unfold main_run. rewrite Hf. unfold bind.
  destruct (define_sim_props_phase w) as (n1 & E1 & F1 & Q1).
  destruct (define_sim_props bx command_args s w) as [[p1|e] w1]; simpl in *;
    [|exists n1; split; [done|]; apply run_config_raised; auto].
  destruct (main_loop_phase p1 w1) as (n2 & E2 & T2).
  destruct (main_loop bx command_args s p1 w1) as [[[f p2]|e] w2]; simpl in *.
  - destruct T2 as [items ->].
    destruct (try_resim_fails_once_phase f p2 w2) as (n3 & E3 & T3).
    destruct (try_resim_fails_once bx command_args s f p2 w2) as [[[f3 p3]|e] w3];
      simpl in *.
    + destruct (finish_phase f3 p3 w3) as (n4 & E4 & T4).
      exists (n1 ++ [CallBatchSim (minibatch command_args) (Some (f, p2, items))]
                 ++ n3 ++ n4).
      split; [rewrite E4, E3, E2, E1, <- !app_assoc; done|].
      apply run_passes; [done|]. destruct f.
      * destruct T3 as (items3 & -> & HR). simpl. by apply pass_resim.
      * destruct T3 as [-> [= -> ->]]. simpl. by apply pass_batch_unfinished.
    + destruct f; [|by destruct T3].
      destruct T3 as [-> Qe].
      exists (n1 ++ [CallBatchSim (minibatch command_args) (Some (true, p2, items));
                     CallResimFails None]).
      split; [rewrite E3, E2, E1, <- !app_assoc; done|].
      apply run_passes; [done|]. by apply pass_resim_raised.
  - destruct T2 as [-> Qe].
    exists (n1 ++ [CallBatchSim (minibatch command_args) None]).
    split; [rewrite E2, E1, <- app_assoc; done|].
    apply run_passes; [done|]. by apply pass_batch_raised.
Qed.

(** The whole block: the setup calls nobody and raises exceptions only;
    then the dataset is skipped, or the run has the shape above. *)
Lemma main_cases w :
  let out := main bx command_args w in
  (∃ e, out.1 = Raise e ∧ is_Exception e = true ∧ calls out.2 = calls w ∧
        ∀ s1 w1, main_setup command_args w ≠ (Ok s1, w1)) ∨
  (∃ s1 w1, main_setup command_args w = (Ok s1, w1) ∧ calls w1 = calls w ∧
            out = main_run bx command_args s1 w1).
Proof.
  simpl. unfold main, bind.
  pose proof (emits_nothing (main_setup command_args) w
                (main_setup_emits _ command_args)) as Hc.
  pose proof (main_setup_exn command_args w) as Hx.
  destruct (main_setup command_args w) as [[s1|e] w1]; simpl in *.
  - right. by exists s1, w1.
  - left. exists e. repeat split; eauto.
Qed.

End RunShape.

(** The run state that the setup returns is the one persisted in the
    dataset's run-state file. *)
Lemma main_setup_reads_run_state args w s w1 :
  main_setup args w = (Ok s, w1) →
  read_file (cwd w1) (fs w1) (dataset_file s) = Ok (Ser (PDict (props s))).
Proof.
  unfold main_setup. intros H.
  repeat match type of H with
         | bind ?m ?k ?w0 = _ =>
             unfold bind at 1 in H; destruct (m w0) as [[?|?] ?] eqn:?; [|discriminate H]
         end.
  unfold ret in H. injection H as <- <-. simpl.
  match goal with
  | E : Properties _ _ = (Ok _, _) |- _ =>
      unfold Properties in E;
      destruct (read_file _ _ _) as [[[]|]|] eqn:Er; try discriminate E;
      injection E as <- <-; exact Er
  end.
Qed.

(** *** Reading a run off its shape *)

Lemma config_calls_no_pass pre :
  Forall (λ c, is_config c = true) pre →
  List.filter is_pass pre = [] ∧ List.filter is_resim pre = [].
Proof.
  induction 1 as [|c pre Hc _ [IH1 IH2]]; [done|].
  simpl. rewrite IH1, IH2. by destruct c.
Qed.

Lemma config_calls_member pre c :
  Forall (λ c, is_config c = true) pre → c ∈ pre → is_config c = true.
Proof. intros H Hin. by apply (proj1 (Forall_forall _ _) H). Qed.

(** Rule out that a call sits in a list of calls of other kinds. *)
Ltac not_among H :=
  repeat first
    [ apply elem_of_app in H as [H|H]
    | apply elem_of_cons in H as [H|H]
    | apply elem_of_nil in H; destruct H
    | discriminate H
    | match goal with
      | F : Forall (λ c, is_config c = true) _ |- _ =>
          apply (config_calls_member _ _ F) in H; discriminate H
      end ].

Lemma calls_since_app w w' new :
  calls w' = calls w ++ new → calls_since w w' = new.
Proof. intros E. unfold calls_since. rewrite E. apply drop_app_length. Qed.

Lemma calls_since_same w w' : calls w' = calls w → calls_since w w' = [].
Proof. intros E. apply calls_since_app. by rewrite app_nil_r. Qed.

(** The passes of a run that was not skipped: none, or the initial pass
    alone when it did not report the dataset finished, or the initial pass
    that did followed by one resim pass. *)
Lemma run_shape_passes bx Q R file new r :
  run_shape bx Q R file new r →
  (passes_of new = [] ∨
   (∃ n o, passes_of new = [CallBatchSim n o] ∧ ∀ p items, o ≠ Some (true, p, items)) ∨
   (∃ n p items o,
      passes_of new = [CallBatchSim n (Some (true, p, items)); CallResimFails o])) ∧
  (items_retried new = [] ∨ ∃ items, R items ∧ items_retried new = items).
Proof.
  unfold passes_of, items_retried.
  destruct 1 as [pre e Hpre _|pre tl r Hpre Hpass].
  - destruct (config_calls_no_pass _ Hpre) as [-> ->]. split; by left.
  - rewrite !List.filter_app.
    destruct (config_calls_no_pass _ Hpre) as [-> ->]. simpl.
    destruct Hpass as [n e _|n p items tl r Ht|n p items e _|n p items f p2 items2 tl r HR Ht].
    + split; [|by left]. right; left. by exists n, None.
    + destruct Ht; simpl; (split; [|by left]); right; left;
        exists n, (Some (false, p, items)); (split; [done|]); by intros ? ? [=].
    + split; [|by left]. right; right. by exists n, p, items, None.
    + destruct Ht; simpl; rewrite ?app_nil_r;
        (split; [right; right; by exists n, p, items, (Some (f, p2, items2))
                |right; by exists items2]).
Qed.

(** What is serialized after a resim pass is the run state that pass left,
    passed through [add_sys_info]. *)
Lemma run_shape_persisted bx Q R file new r f p2 items p3 file' :
  run_shape bx Q R file new r →
  CallResimFails (Some (f, p2, items)) ∈ new →
  CallSerialize p3 file' ∈ new →
  ∃ c t t', add_sys_info bx p2 c t = (Ok p3, t').
Proof.
  destruct 1 as [pre e Hpre _|pre tl r Hpre Hpass]; intros H1 H2.
  - not_among H1.
  - destruct Hpass as [n e _|n p items0 tl r Ht|n p items0 e _
                      |n p items0 f0 p0 items2 tl r HR Ht].
    + not_among H1.
    + destruct Ht; not_among H1.
    + not_among H1.
    + apply elem_of_app in H1 as [H1|H1]; [not_among H1|].
      apply elem_of_cons in H1 as [H1|H1]; [discriminate H1|].
      apply elem_of_cons in H1 as [H1|H1]; [|destruct Ht; not_among H1].
      injection H1 as -> -> ->.
      destruct Ht as [e _|p4 c t t' e Ha _|p4 c t t' Ha].
      * not_among H2.
      * apply elem_of_app in H2 as [H2|H2]; [not_among H2|].
        do 3 (apply elem_of_cons in H2 as [H2|H2]; [discriminate H2|]).
        apply elem_of_cons in H2 as [H2|H2]; [|not_among H2].
        injection H2 as -> ->. eauto.
      * apply elem_of_app in H2 as [H2|H2]; [not_among H2|].
        do 3 (apply elem_of_cons in H2 as [H2|H2]; [discriminate H2|]).
        apply elem_of_cons in H2 as [H2|H2]; [|not_among H2].
        injection H2 as -> ->. eauto.
Qed.

(** The exit status of a run that was not skipped. *)
Lemma run_shape_exit bx R file new r :
  run_shape bx (λ e, is_Exception e = true) R file new r →
  (exit_status r = 0 ↔ both_finished new ∧ escaped r = false) ∧
  (exit_status r = 0 ∨ exit_status r = 1).
Proof.
  assert (∀ e, is_Exception e = true →
               (exit_status (Raise e : Res unit) = 0
                ↔ both_finished new ∧ escaped (Raise e : Res unit) = false) ∧
               (exit_status (Raise e : Res unit) = 0
                ∨ exit_status (Raise e : Res unit) = 1)) as Hexn.
  { intros e He. rewrite (exit_status_exn _ He). simpl. rewrite He.
    split; [|by right]. split; [done|]. by intros [_ ?]. }
  destruct 1 as [pre e Hpre He|pre tl r Hpre Hpass]; [by apply Hexn|].
  destruct Hpass as [n e He|n p items tl r Ht|n p items e He
                    |n p items f p2 items2 tl r _ Ht].
  - by apply Hexn.
  - destruct Ht as [e He|p4 c t t' e _ He|p4 c t t' _]; try by apply Hexn.
    simpl. split; [|by right]. split; [done|].
    intros [(n' & p' & i' & p2' & i2' & _ & H2) _]. not_among H2.
  - by apply Hexn.
  - destruct Ht as [e He|p4 c t t' e _ He|p4 c t t' _]; try by apply Hexn.
    destruct f; simpl.
    + split; [|by left]. split; [intros _|done]. split; [|done].
      exists n, p, items, p2, items2. rewrite !elem_of_app, !elem_of_cons. tauto.
    + split; [|by right]. split; [done|].
      intros [(n' & p' & i' & p2' & i2' & _ & H2) _]. not_among H2.
Qed.

Lemma collaborators_raise_anything bx : collaborators_raise (λ _, True) bx.
Proof. by repeat split. Qed.

Lemma demo_collaborators_raise : collaborators_raise (λ e, is_Exception e = true) Demo.bx.
Proof.
  repeat split; intros; intros ? ? ? ? H; try discriminate H.
  by apply (write_file_exn _ _ _ _ _ _ H).
Qed.

Lemma demo_resim_retries_once : resim_retries_once Demo.bx.
Proof.
  intros dp op p rd c cw t finished p2 items t' [= _ _ <- _].
  apply NoDup_singleton.
Qed.

(** C2: when the run state that the setup read from the dataset's run-state
    file has a true [frozen] entry, the invocation ends right after the
    setup with [sys.exit(0)], whatever the arguments (minibatch size
    included): the world is the one the setup left, no collaborator was
    called, so neither pass was entered and no item was attempted. *)
Theorem frozen_dataset_is_skipped
    (bx : BatchCollaborators) (command_args : CommandArgs) (w w1 : World)
    (s : Setup) (v : pyval) :
  main_setup command_args w = (Ok s, w1) →
  props s !! "frozen" = Some v →
  truthy v = true →
  read_file (cwd w1) (fs w1) (dataset_file s) = Ok (Ser (PDict (props s))) ∧
  main bx command_args w = (Raise (SystemExit 0), w1) ∧
  calls w1 = calls w ∧
  passes_of (calls_since w w1) = [] ∧
  items_attempted (calls_since w w1) = [].
Proof.
  intros Hsetup Hv Ht.
  split; [by apply (main_setup_reads_run_state command_args w)|].
  assert (calls w1 = calls w) as Hc.
  { pose proof (emits_nothing (main_setup command_args) w
                  (main_setup_emits _ command_args)) as H.
    by rewrite Hsetup in H. }
  split.
  - unfold main, bind. rewrite Hsetup. apply main_run_frozen.
    unfold is_frozen. by rewrite Hv.
  - split; [done|]. by rewrite (calls_since_same _ _ Hc).
Qed.

Lemma frozen_dataset_is_skipped_witness :
  let w := Demo.batch_world Demo.run_state_frozen in
  main Demo.bx Demo.args w = (Raise (SystemExit 0), (main_setup Demo.args w).2) ∧
  items_attempted (calls_since w (main_setup Demo.args w).2) = [].
Proof.
  intros w.
  destruct (frozen_dataset_is_skipped Demo.bx Demo.args w (main_setup Demo.args w).2
              (Demo.setup_of Demo.run_state_frozen) (PBool true))
    as (_ & Hmain & _ & _ & Hitems);
    [vm_compute; reflexivity | vm_compute; reflexivity | reflexivity |].
  by split.
Defined.

(** C3, as amended: provided the collaborators raise exceptions only, the
    exit status is 0 exactly when the setup succeeded and either the dataset
    is frozen (the run is skipped) or both passes reported the dataset
    finished and no exception left the script; otherwise it is 1. *)
Theorem exit_status_of_main
    (bx : BatchCollaborators) (command_args : CommandArgs) (w : World) :
  collaborators_raise (λ e, is_Exception e = true) bx →
  let out := main bx command_args w in
  let new := calls_since w out.2 in
  (exit_status out.1 = 0 ↔
   ∃ s w1, main_setup command_args w = (Ok s, w1) ∧
           (is_frozen (props s) = true ∨ (both_finished new ∧ escaped out.1 = false))) ∧
  (exit_status out.1 = 0 ∨ exit_status out.1 = 1).
Proof.
  intros Hbx. simpl.
  destruct (main_cases bx command_args w) as [(e & Hr & He & Hc & Hno)|(s & w1 & Hs & Hc & Hout)].
  - rewrite Hr, (exit_status_exn _ He). split; [|by right].
    split; [done|]. intros (s & w1 & Hs & _). by destruct (Hno s w1).
  - rewrite Hout. destruct (is_frozen (props s)) eqn:Hf.
    + rewrite (main_run_frozen bx command_args s w1 Hf). simpl.
      split; [|by left]. split; [intros _|done]. exists s, w1. auto.
    + destruct (main_run_phase bx (λ e, is_Exception e = true) (λ _, True)
                  (λ e He, He) Hbx (λ _ _ _ _ _ _ _ _ _ _ _ _, I) command_args s Hf w1)
        as (new & Hnew & Hshape).
      rewrite Hc in Hnew. rewrite (calls_since_app _ _ _ Hnew).
      destruct (run_shape_exit _ _ _ _ _ Hshape) as [Hiff Hcode].
      split; [|done]. rewrite Hiff. split.
      * intros H. exists s, w1. auto.
      * intros (s' & w1' & Hs' & [Hfr|H]); [|done].
        rewrite Hs in Hs'. injection Hs' as <- <-. congruence.
Qed.

Lemma exit_status_of_main_witness :
  let w := Demo.batch_world Demo.run_state_fresh in
  let out := main Demo.bx Demo.args w in
  exit_status out.1 = 0 ∧
  ∃ s w1, main_setup Demo.args w = (Ok s, w1) ∧
          (is_frozen (props s) = true
           ∨ (both_finished (calls_since w out.2) ∧ escaped out.1 = false)).
Proof.
  intros w out.
  assert (exit_status out.1 = 0) as H0 by (vm_compute; reflexivity).
  split; [exact H0|].
  by apply (exit_status_of_main Demo.bx Demo.args w demo_collaborators_raise).
Defined.

(** C3, as stated, fails: on a frozen dataset the invocation exits with
    status 0, although no pass ran and none reported the dataset finished. *)
Lemma frozen_run_exits_zero :
  let out := main Demo.bx Demo.args (Demo.batch_world Demo.run_state_frozen) in
  exit_status out.1 = 0 ∧ calls out.2 = [] ∧ ¬ both_finished (calls out.2).
Proof.
  simpl.
  assert (calls (main Demo.bx Demo.args (Demo.batch_world Demo.run_state_frozen)).2 = [])
    as Hc by (vm_compute; reflexivity).
  split; [vm_compute; reflexivity|]. split; [exact Hc|].
  rewrite Hc. intros (n & p & items & p2 & items2 & H & _). by apply elem_of_nil in H.
Qed.

(** C9: the passes of one invocation are none, or the initial pass alone
    when it raised or did not report the dataset finished, or the initial
    pass that reported it finished followed by exactly one resim pass, with
    no pass after it.  Provided a resim pass attempts no item twice, no item
    is retried twice in the invocation.  What is serialized after the resim
    pass is the run state that pass left (with the failures it recorded),
    passed through [add_sys_info]. *)
Theorem resim_runs_at_most_once
    (bx : BatchCollaborators) (command_args : CommandArgs) (w : World) :
  resim_retries_once bx →
  let out := main bx command_args w in
  let new := calls_since w out.2 in
  (passes_of new = [] ∨
   (∃ n o, passes_of new = [CallBatchSim n o] ∧ ∀ p items, o ≠ Some (true, p, items)) ∨
   (∃ n p items o,
      passes_of new = [CallBatchSim n (Some (true, p, items)); CallResimFails o])) ∧
  NoDup (items_retried new) ∧
  (∀ f p2 items p3 file,
     CallResimFails (Some (f, p2, items)) ∈ new →
     CallSerialize p3 file ∈ new →
     ∃ c t t', add_sys_info bx p2 c t = (Ok p3, t')).
Proof.
  intros Hresim. simpl.
  assert (∀ w', calls w' = calls w →
     (passes_of (calls_since w w') = [] ∨
      (∃ n o, passes_of (calls_since w w') = [CallBatchSim n o]
              ∧ ∀ p items, o ≠ Some (true, p, items)) ∨
      (∃ n p items o, passes_of (calls_since w w')
                      = [CallBatchSim n (Some (true, p, items)); CallResimFails o])) ∧
     NoDup (items_retried (calls_since w w')) ∧
     (∀ f p2 items p3 file,
        CallResimFails (Some (f, p2, items)) ∈ calls_since w w' →
        CallSerialize p3 file ∈ calls_since w w' →
        ∃ c t t', add_sys_info bx p2 c t = (Ok p3, t'))) as Hquiet.
  { intros w' E. rewrite (calls_since_same _ _ E).
    split; [by left|]. split; [constructor|]. intros f p2 items p3 file H.
    by apply elem_of_nil in H. }
  destruct (main_cases bx command_args w) as [(e & Hr & He & Hc & Hno)|(s & w1 & Hs & Hc & Hout)].
  - by apply Hquiet.
  - rewrite Hout. destruct (is_frozen (props s)) eqn:Hf.
    + rewrite (main_run_frozen bx command_args s w1 Hf). by apply Hquiet.
    + destruct (main_run_phase bx (λ _, True) (λ items, NoDup items)
                  (λ _ _, I) (collaborators_raise_anything bx) Hresim command_args s Hf w1)
        as (new & Hnew & Hshape).
      rewrite Hc in Hnew. rewrite (calls_since_app _ _ _ Hnew).
      destruct (run_shape_passes _ _ _ _ _ _ Hshape) as [Hp Hi].
      split; [exact Hp|]. split.
      * destruct Hi as [->|(items & Hnd & ->)]; [constructor|done].
      * intros f p2 items p3 file. by apply (run_shape_persisted _ _ _ _ _ _ _ _ _ _ _ Hshape).
Qed.

Lemma resim_runs_at_most_once_witness :
  let w := Demo.batch_world Demo.run_state_fresh in
  let out := main Demo.bx Demo.args w in
  items_attempted (calls_since w out.2) = ["g1"; "g2"; "g3"; "g2"] ∧
  items_retried (calls_since w out.2) = ["g2"] ∧
  NoDup (items_retried (calls_since w out.2)).
Proof.
  intros w out.
  split; [vm_compute; reflexivity|]. split; [vm_compute; reflexivity|].
  by apply (resim_runs_at_most_once Demo.bx Demo.args w demo_resim_retries_once).
Defined.


(** * Further properties of the code *)

(** ** Sessions and downloads *)

Lemma path_exists_removed c t p r :
  resolve c t p = Some r → r ≠ [] → path_exists c (remove_subtree r t) p = false.
Proof.
  intros Hr Hne. unfold path_exists.
  destruct (resolve c (remove_subtree r t) p) as [r'|] eqn:Hr'; [|done].
  apply walk_remove_subtree in Hr'. unfold resolve in Hr. rewrite Hr in Hr'.
  injection Hr' as <-. destruct r as [|x r]; [done|]. simpl.
  rewrite remove_subtree_inside by done. apply bool_decide_eq_false. by intros [? ?].
Qed.

Lemma remove_if_present_gone root sid w w1 :
  plain_name sid = true →
  remove_if_present (root /: sid) w = (Ok (), w1) →
  path_exists (cwd w1) (fs w1) (root /: sid) = false.
Proof.
  intros Hp H. unfold remove_if_present, bind, exists_ in H.
  destruct (path_exists (cwd w) (fs w) (root /: sid)) eqn:Ex.
  - unfold on_fs in H.
    destruct (resolve (cwd w) (fs w) (root /: sid)) as [r|] eqn:R;
      [|unfold rmtree in H; by rewrite R in H].
    destruct (node_at (fs w) r) as [[|x]|] eqn:N;
      [|unfold rmtree in H; by rewrite R, N in H..].
    destruct (rmtree_dir _ _ _ _ R N) as [(E & Hne & _)|(e & E & _)];
      rewrite E in H; [|done].
    injection H as <-. simpl. by apply path_exists_removed.
  - injection H as <-. exact Ex.
Qed.

(** X1: once [cleanup_session] has returned for a plain session identifier,
    the session directory is gone, in both services. *)
Theorem cleanup_session_removes_directory
    (s3 : GarmentTo3DService) (sv : GarmentSVGService) (sid : string) (w w1 : World) :
  plain_name sid = true →
  (GarmentTo3DService_cleanup_session s3 sid w = (Ok (), w1) →
   path_exists (cwd w1) (fs w1) (output_root s3 /: sid) = false) ∧
  (GarmentSVGService_cleanup_session sv sid w = (Ok (), w1) →
   path_exists (cwd w1) (fs w1) (svg_output_root sv /: sid) = false).
Proof.
  intros Hp. rewrite cleanup_3d_unfold, cleanup_svg_unfold.
  split; by apply remove_if_present_gone.
Qed.

Lemma cleanup_session_removes_directory_witness :
  let w1 := (GarmentTo3DService_cleanup_session Demo.service "a" Demo.world0).2 in
  path_exists (cwd Demo.world0) (fs Demo.world0) (output_root Demo.service /: "a") = true ∧
  path_exists (cwd w1) (fs w1) (output_root Demo.service /: "a") = false.
Proof.
  intros w1. split; [vm_compute; reflexivity|].
  apply (cleanup_session_removes_directory Demo.service Demo.svg_service "a" Demo.world0 w1);
    vm_compute; reflexivity.
Defined.





(** Outside the plain identifiers: [".."] names the directory above the
    output root.  [rmtree] empties it, the output root included, and its
    last step no longer finds the path. *)
Lemma rmtree_through_dotdot :
  rmtree ["srv"] Demo.tree0 (Path "./tmp_3d_service" /: "..")
  = (Raise (FileNotFoundError (Path "./tmp_3d_service" /: "..")),
     remove_below ["srv"] Demo.tree0) ∧
  remove_below ["srv"] Demo.tree0 = {[ ["srv"] := Dir ]}.
Proof. split; vm_compute; reflexivity. Qed.




Lemma last_app_nonempty {A} (l1 l2 : list A) d :
  l2 ≠ [] → List.last (l1 ++ l2) d = List.last l2 d.
Proof.
  intros H. induction l1 as [|x l1 IH]; [done|]. simpl.
  destruct (l1 ++ l2) eqn:E; [|done].
  apply app_eq_nil in E as [_ ->]. done.
Qed.

(** What [rglob] finds lies strictly below the directory, is an entry of the
    file system, and has a name that matches. *)
Lemma rglob_elem c t p pat q :
  q ∈ rglob c t p pat →
  ∃ r suffix,
    resolve c t p = Some r ∧ suffix ≠ [] ∧ is_Some (t !! (r ++ suffix)) ∧
    q = MkPath (absolute p) (parts p ++ suffix) ∧ pat (name q) = true.
Proof.
  unfold rglob. destruct (resolve c t p) as [r|] eqn:R; [|by intros ?%elem_of_nil].
  destruct (is_dir t r); [|by intros ?%elem_of_nil].
  intros Hq. apply list_elem_of_omap in Hq as [[k n] [Hin Hsome]].
  apply elem_of_map_to_list in Hin. simpl in Hsome.
  destruct (bool_decide (r `prefix_of` k)) eqn:Hpre; simpl in Hsome; [|done].
  apply bool_decide_eq_true in Hpre as [suffix ->].
  destruct (bool_decide (r ++ suffix = r)) eqn:Heq; simpl in Hsome; [done|].
  apply bool_decide_eq_false in Heq.
  destruct (pat (List.last (r ++ suffix) "")) eqn:Hpat; [|done].
  injection Hsome as <-. exists r, suffix.
  assert (suffix ≠ []) as Hne by (intros ->; by rewrite app_nil_r in Heq).
  rewrite drop_app_length. repeat split; eauto.
  unfold name. simpl.
  rewrite last_app_nonempty in Hpat |- * by done. done.
Qed.







(** ** Failures of the generation endpoints *)

Lemma raises_exceptions_call_log {A} (c : Res A → Call) (f : Ext A) :
  raises_only (λ e, is_Exception e = true) f → raises_exceptions (call_log c f).
Proof.
  intros H w e w'. unfold call_log.
  destruct (f (cwd w) (fs w)) as [r t] eqn:E. intros [= -> <-].
  by apply (H _ _ _ _ E).
Qed.

Lemma raises_exceptions_call {A} (c : Call) (f : Ext A) :
  raises_only (λ e, is_Exception e = true) f → raises_exceptions (call c f).
Proof. apply raises_exceptions_call_log. Qed.

Lemma raises_exceptions_try {A} (m : M A) (h : exn → M A) :
  raises_exceptions m →
  (∀ e, is_Exception e = true → raises_exceptions (h e)) →
  raises_exceptions (try_except m h).
Proof.
  intros Hm Hh w e w'. unfold try_except.
  destruct (m w) as [[a|e0] w1] eqn:E; [by intros [=]|].
  rewrite (Hm _ _ _ E). apply Hh. by apply (Hm _ _ _ E).
Qed.

Lemma raises_exceptions_raise {A} e :
  is_Exception e = true → raises_exceptions (raise e : M A).
Proof. intros H w e' w'. by intros [= <- <-]. Qed.

Lemma raises_exceptions_fresh_uuid ext : raises_exceptions (fresh_uuid ext).
Proof. intros w e w' H. discriminate H. Qed.

Lemma setup_body_exn fresh defaults bp e :
  setup_body fresh defaults bp = Raise e → is_Exception e = true.
Proof.
  unfold setup_body, load_from_dict.
  destruct bp as [d|]; [|done]. destruct (truthy (PDict d)); [|done].
  case_bool_decide; by intros [= <-].
Qed.

Section PipelineExceptions.

Variable ext : Collaborators.
Hypothesis Hext : pipeline_raises_exceptions ext.

Ltac exn_step :=
  cbv beta;
  match goal with
  | |- raises_exceptions (bind _ _) => apply raises_exceptions_bind; [|intros ?]
  | |- raises_exceptions (try_except _ _) => apply raises_exceptions_try; [|intros ? ?]
  | |- raises_exceptions (ret _) => apply raises_exceptions_ret
  | |- raises_exceptions (raise _) => apply raises_exceptions_raise
  | |- raises_exceptions (lift (setup_body _ _ _)) =>
      apply raises_exceptions_lift, setup_body_exn
  | |- raises_exceptions (on_fs _) =>
      apply raises_exceptions_on_fs; first [apply mkdir_parents_exn | apply write_file_exn]
  | |- raises_exceptions (call _ _) => apply raises_exceptions_call
  | |- raises_exceptions (match ?x with (_, _) => _ end) => destruct x
  | |- raises_exceptions (match ?x with Some _ => _ | None => _ end) => destruct x
  end.

Lemma generate_3d_exn self design sid bp :
  raises_exceptions (GarmentTo3DService_generate_3d ext self design sid bp).
Proof.
  destruct Hext as (H1 & H2 & H3 & H4 & H5 & H6 & H7).
  unfold GarmentTo3DService_generate_3d. repeat exn_step; auto.
Qed.

Lemma design_params_exn design sd body wt vi wp :
  raises_exceptions (_generate_svg_from_design_params ext design sd body wt vi wp).
Proof.
  destruct Hext as (H1 & H2 & H3 & H4 & H5 & H6 & H7).
  unfold _generate_svg_from_design_params. repeat exn_step; auto.
Qed.

Lemma pattern_spec_exn spec sd body pn wt vi wp :
  raises_exceptions (_generate_svg_from_pattern_spec ext spec sd body pn wt vi wp).
Proof.
  destruct Hext as (H1 & H2 & H3 & H4 & H5 & H6 & H7).
  unfold _generate_svg_from_pattern_spec, load_pattern_spec.
  apply raises_exceptions_try; [repeat exn_step; auto|]. intros e He.
  destruct (spec !! "design"); [apply design_params_exn|by apply raises_exceptions_raise].
Qed.

Lemma generate_svg_exn self odesign ospec sid bp wt vi wp :
  raises_exceptions (GarmentSVGService_generate_svg ext self odesign ospec sid bp wt vi wp).
Proof.
  unfold GarmentSVGService_generate_svg.
  destruct (bool_decide _ && bool_decide _); [by apply raises_exceptions_raise|].
  repeat exn_step; first [apply pattern_spec_exn | apply design_params_exn].
Qed.

End PipelineExceptions.

Lemma endpoint_failure_is_500 {A} (m : M A) (f : exn → text) w e w' :
  raises_exceptions m →
  try_except m (λ e, raise (HTTPException 500 (f e))) w = (Raise e, w') →
  ∃ e0, m w = (Raise e0, w') ∧ e = HTTPException 500 (f e0).
Proof.
  intros Hm. unfold try_except, raise.
  destruct (m w) as [[a|e0] w1] eqn:E; [by intros [=]|].
  rewrite (Hm _ _ _ E). intros [= <- <-]. by exists e0.
Qed.

(** X5: when the collaborators raise ordinary exceptions only, the single
    failure a caller can get from the generation endpoints is an
    [HTTPException] with status 500 whose detail is the endpoint's prefix,
    the text of the exception raised inside, and its traceback: never a 4xx,
    never another exception type. *)
Theorem generation_endpoints_fail_with_500
    (ext : Collaborators) (mean_all : BodyParameters) (props : dict) (w w' : World)
    (e : exn) :
  pipeline_raises_exceptions ext →
  (∀ request,
     garment_3d_service.generate_3d ext mean_all props request w = (Raise e, w') →
     ∃ e0, e = HTTPException 500 (detail_with_traceback "Error in 3D generation: " e0)) ∧
  (∀ request,
     api_garment_3d_service.generate_svg ext mean_all request w = (Raise e, w') →
     ∃ e0, e = HTTPException 500 (detail_with_traceback "Error in SVG generation: " e0)) ∧
  (∀ request,
     api_garment_3d_service.generate_pattern_svg ext mean_all request w = (Raise e, w') →
     ∃ e0, e = HTTPException 500
                 (detail_with_traceback "Error in pattern SVG generation: " e0)).
Proof.
  intros Hext. split; [|split]; intros request H.
  - apply endpoint_failure_is_500 in H as (e0 & _ & ->); [by exists e0|].
    apply raises_exceptions_bind; [apply raises_exceptions_fresh_uuid|intros sid].
    apply raises_exceptions_bind; [by apply generate_3d_exn|intros [? ?]].
    apply raises_exceptions_ret.
  - apply endpoint_failure_is_500 in H as (e0 & _ & ->); [by exists e0|].
    destruct (negb _ && negb _); [by apply raises_exceptions_raise|].
    apply raises_exceptions_bind; [apply raises_exceptions_fresh_uuid|intros sid].
    apply raises_exceptions_bind; [by apply generate_svg_exn|intros [[[? ?] ?] ?]].
    apply raises_exceptions_ret.
  - apply endpoint_failure_is_500 in H as (e0 & _ & ->); [by exists e0|].
    apply raises_exceptions_bind; [apply raises_exceptions_fresh_uuid|intros sid].
    apply raises_exceptions_bind; [by apply generate_svg_exn|intros [[[? ?] ?] ?]].
    apply raises_exceptions_ret.
Qed.

Lemma demo_write_pattern_exn folder nm :
  raises_only (λ e, is_Exception e = true) (Demo.write_pattern folder nm).
Proof.
  intros c t e t'. unfold Demo.write_pattern.
  destruct (mkdir_parents c t folder) as [[u|e0] t1] eqn:E1.
  - destruct (write_file c t1 _ _) as [[u'|e1] t2] eqn:E2; intros [= <- <-].
    by apply (write_file_exn _ _ _ _ _ _ E2).
  - intros [= <- <-]. by apply (mkdir_parents_exn _ _ _ _ _ E1).
Qed.

Lemma demo_pipeline_raises_exceptions : pipeline_raises_exceptions Demo.ext_raw_fails.
Proof.
  repeat split; intros; intros c0 t0 e0 t0'; simpl.
  - destruct (Demo.write_pattern _ _ c0 t0) as [[x|e1] t1] eqn:E; intros [= <- <-].
    by apply (demo_write_pattern_exn _ _ _ _ _ _ E).
  - by intros [= <- <-].
  - apply write_file_exn.
  - by intros [=].
  - by intros [=].
  - destruct (mkdir_parents c0 t0 _) as [[u|e1] t1] eqn:E.
    + apply write_file_exn.
    + intros [= <- <-]. by apply (mkdir_parents_exn _ _ _ _ _ E).
  - apply write_file_exn.
Qed.

Lemma generation_endpoints_fail_with_500_witness :
  let request :=
    api_garment_3d_service.MkGenerateSVGRequest (Some Demo.spec_bare) None None
      true true false in
  let out :=
    api_garment_3d_service.generate_svg Demo.ext_raw_fails Demo.mean_all request
      Demo.world0 in
  ∃ e0, out.1 = Raise (HTTPException 500
                         (detail_with_traceback "Error in SVG generation: " e0)).
Proof.
  intros request out.
  destruct (generation_endpoints_fail_with_500 Demo.ext_raw_fails Demo.mean_all ∅
              Demo.world0 out.2
              (HTTPException 500
                 (detail_with_traceback "Error in SVG generation: "
                    (Exception_ (Cat (Lit "Could not process pattern specification: ")
                                     (StrOf (Foreign "VisPattern"))))))
              demo_pipeline_raises_exceptions) as (_ & H & _).
  destruct (H request) as [e0 He0]; [vm_compute; reflexivity|].
  exists e0. rewrite <- He0. vm_compute. reflexivity.
Defined.

(** ** The stages of a request *)



Ltac step_in H :=
  match type of H with
  | context [bind (call _ _) _ _] => unfold bind at 1, call at 1, call_log at 1 in H
  | context [bind (on_fs _) _ _] => unfold bind at 1, on_fs at 1 in H
  | context [bind (lift _) _ _] => unfold bind at 1, lift at 1 in H
  end;
  cbn [fs cwd calls uuids set_fs fst snd] in H.

Ltac phase_done H :=
  try (unfold raise in H); try (unfold ret in H);
  injection H as <- <-; cbn [calls set_fs];
  eexists; split;
    [rewrite <- ?app_assoc; first [reflexivity | symmetry; apply app_nil_r]|];
  cbn [app].

Section SvgStages.

Variable ext : Collaborators.

(** The parametric path: one call of the pattern compiler, then at most the
    snapshot of the profile. *)
Lemma design_params_phase design sd body wt vi wp :
  phase (λ new _, ∃ tl, new = CallMetaGarment "SVG_Pattern" (params body) design :: tl ∧
                        Forall (λ c, is_parametric c = false ∧ is_raw c = false) tl)
        (_generate_svg_from_design_params ext design sd body wt vi wp).
Proof.
  apply phase_intro. intros w r w' H.
  unfold _generate_svg_from_design_params, try_except in H.
  step_in H.
  destruct (MetaGarment_serialize ext _ _ _ _ _ _ _) as [[[folder nm]|e] t1].
  - step_in H. destruct (body_save ext _ _ _ _) as [[u|e] t2].
    + step_in H. destruct (write_file _ _ _ _) as [[u'|e] t3];
        [|destruct (is_Exception e)]; phase_done H; eexists; split;
        try reflexivity; by repeat constructor.
    + destruct (is_Exception e); phase_done H; eexists; split;
        try reflexivity; by repeat constructor.
  - destruct (is_Exception e); phase_done H; eexists; split;
      try reflexivity; by repeat constructor.
Qed.

(** The raw attempt: no call of the pattern compiler, at most one of the
    pattern wrapper. *)
Lemma load_pattern_spec_phase spec sd body pn wt vi wp :
  phase (λ new _, Forall (λ c, is_parametric c = false) new ∧
                  (length (List.filter is_raw new) ≤ 1)%nat)
        (load_pattern_spec ext spec sd body pn wt vi wp).
Proof.
  apply phase_intro. intros w r w' H. unfold load_pattern_spec in H.
  step_in H. destruct (write_file _ _ _ _) as [[u|e] t1].
  - step_in H. destruct (VisPattern_serialize ext _ _ _ _ _ _) as [[folder|e] t2].
    + step_in H. destruct (body_save ext _ _ _ _) as [[u'|e] t3];
        phase_done H; (split; [by repeat constructor|simpl; lia]).
    + phase_done H; split; [by repeat constructor|simpl; lia].
  - phase_done H. split; [by repeat constructor|simpl; lia].
Qed.

End SvgStages.

Lemma filter_none {A} (f : A → bool) (l : list A) :
  Forall (λ c, f c = false) l → List.filter f l = [].
Proof. induction 1 as [|c l Hc _ IH]; [done|]. simpl. by rewrite Hc. Qed.

Lemma not_among_others {A} (f : A → bool) (l : list A) c :
  Forall (λ c, f c = false) l → c ∈ l → f c = true → False.
Proof.
  intros H Hin Hc. apply (proj1 (Forall_forall _ _) H) in Hin. congruence.
Qed.

(** X7: one call of [generate_svg] makes at most one call of the pattern
    wrapper and at most one of the pattern compiler: nothing is retried.
    With a Raw Pattern Specification in the request the compiler, if called
    at all, is given the design embedded in that specification; without one,
    the wrapper is never called and the compiler gets the request's design. *)
Theorem generate_svg_calls_each_compiler_once
    (ext : Collaborators) (self : GarmentSVGService) (odesign ospec : option dict)
    (sid : string) (bp : option dict) (wt vi wp : bool) (w : World) :
  let out := GarmentSVGService_generate_svg ext self odesign ospec sid bp wt vi wp w in
  let new := calls_since w out.2 in
  (length (List.filter is_raw new) ≤ 1)%nat ∧
  (length (List.filter is_parametric new) ≤ 1)%nat ∧
  (∀ n b d, CallMetaGarment n b d ∈ new →
            match ospec with
            | Some spec => spec !! "design" = Some d
            | None => d = opt_val odesign
            end) ∧
  (ospec = None → List.filter is_raw new = []).
Proof.
  destruct (GarmentSVGService_generate_svg ext self odesign ospec sid bp wt vi wp w)
    as [r w'] eqn:H.
  cbn [fst snd]. unfold GarmentSVGService_generate_svg in H.
  assert (∀ w0, calls w0 = calls w → calls_since w w0 = []) as Hquiet
    by (intros w0 E; by apply calls_since_same).
  destruct (bool_decide _ && bool_decide _).
  { injection H as <- <-. rewrite Hquiet by done. repeat split; simpl; try lia.
    by intros n b d ?%elem_of_nil. }
  step_in H. destruct (mkdir_parents _ _ _) as [[u|e] t0].
  2:{ injection H as <- <-. rewrite Hquiet by done. repeat split; simpl; try lia.
      by intros n b d ?%elem_of_nil. }
  step_in H. destruct (setup_body _ _ _) as [body|e].
  2:{ injection H as <- <-. rewrite Hquiet by done. repeat split; simpl; try lia.
      by intros n b d ?%elem_of_nil. }
  destruct ospec as [spec|].
  - unfold _generate_svg_from_pattern_spec, try_except in H.
    destruct (load_pattern_spec_phase ext spec (svg_output_root self /: sid) body
                "user_pattern_svg" wt vi wp (set_fs w t0)) as (n1 & E1 & F1 & L1).
    destruct (load_pattern_spec ext spec _ body _ wt vi wp (set_fs w t0))
      as [[a|e] w1]; cbn [fst snd] in *;
      change (calls (set_fs w t0)) with (calls w) in E1.
    + injection H as <- <-. rewrite (calls_since_app _ _ _ E1).
      rewrite (filter_none _ _ F1). repeat split; simpl; try lia; try done.
      intros n b d Hin. by destruct (not_among_others _ _ _ F1 Hin).
    + destruct (is_Exception e).
      * destruct (spec !! "design") as [design|].
        -- destruct (design_params_phase ext design (svg_output_root self /: sid) body
                       wt vi wp w1) as (n2 & E2 & tl & -> & F2).
           rewrite H in E2. cbn [fst snd] in E2. rewrite E1, <- app_assoc in E2.
           rewrite (calls_since_app _ _ _ E2).
           assert (Forall (λ c, is_parametric c = false) tl) as F2p
             by (eapply Forall_impl; [exact F2|]; by intros c [? ?]).
           assert (Forall (λ c, is_raw c = false) tl) as F2r
             by (eapply Forall_impl; [exact F2|]; by intros c [? ?]).
           rewrite !List.filter_app. cbn [List.filter is_raw is_parametric].
           rewrite (filter_none _ _ F1), (filter_none _ _ F2p), (filter_none _ _ F2r).
           rewrite app_nil_r. repeat split; simpl; try lia; try done.
           intros n b d Hin. apply elem_of_app in Hin as [Hin|Hin];
             [by destruct (not_among_others _ _ _ F1 Hin)|].
           apply elem_of_cons in Hin as [[= _ _ ->]|Hin]; [done|].
           by destruct (not_among_others _ _ _ F2p Hin).
        -- injection H as <- <-. rewrite (calls_since_app _ _ _ E1).
           rewrite (filter_none _ _ F1). repeat split; simpl; try lia; try done.
           intros n b d Hin. by destruct (not_among_others _ _ _ F1 Hin).
      * injection H as <- <-. rewrite (calls_since_app _ _ _ E1).
        rewrite (filter_none _ _ F1). repeat split; simpl; try lia; try done.
        intros n b d Hin. by destruct (not_among_others _ _ _ F1 Hin).
  - destruct (design_params_phase ext (opt_val odesign) (svg_output_root self /: sid)
                body wt vi wp (set_fs w t0)) as (n2 & E2 & tl & -> & F2).
    rewrite H in E2. cbn [fst snd] in E2.
    change (calls (set_fs w t0)) with (calls w) in E2.
    rewrite (calls_since_app _ _ _ E2).
    assert (Forall (λ c, is_parametric c = false) tl) as F2p
      by (eapply Forall_impl; [exact F2|]; by intros c [? ?]).
    assert (Forall (λ c, is_raw c = false) tl) as F2r
      by (eapply Forall_impl; [exact F2|]; by intros c [? ?]).
    cbn [List.filter is_raw is_parametric].
    rewrite (filter_none _ _ F2p), (filter_none _ _ F2r).
    repeat split; simpl; try lia; try done.
    intros n b d Hin. apply elem_of_cons in Hin as [[= _ _ ->]|Hin]; [done|].
    by destruct (not_among_others _ _ _ F2p Hin).
Qed.

(** ** What the SVG service returns *)

Lemma returns_ret {A} (T : A → Prop) a : T a → returns T (ret a).
Proof. intros H w a' w' [= <- _]. done. Qed.

Lemma returns_raise {A} (T : A → Prop) e : returns T (raise e).
Proof. intros w a w' H. discriminate H. Qed.

Lemma returns_bind {A B} (T : B → Prop) (m : M A) (k : A → M B) :
  (∀ a, returns T (k a)) → returns T (bind m k).
Proof.
  intros Hk w b w'. unfold bind. destruct (m w) as [[a|e] w1]; [apply Hk|done].
Qed.

Lemma returns_try {A} (T : A → Prop) (m : M A) (h : exn → M A) :
  returns T m → (∀ e, returns T (h e)) → returns T (try_except m h).
Proof.
  intros Hm Hh w a w'. unfold try_except.
  destruct (m w) as [[a0|e] w1] eqn:E.
  - intros [= <- <-]. by apply (Hm _ _ _ E).
  - destruct (is_Exception e); [apply Hh|done].
Qed.

Lemma design_params_returns ext design sd body wt vi wp :
  returns (named_after wp) (_generate_svg_from_design_params ext design sd body wt vi wp).
Proof.
  unfold _generate_svg_from_design_params.
  apply returns_try; [|intros e; apply returns_raise].
  apply returns_bind. intros [folder nm].
  apply returns_bind. intros _. apply returns_bind. intros _.
  apply returns_ret. by exists nm.
Qed.

Lemma pattern_spec_returns ext spec sd body pn wt vi wp :
  returns (named_after wp) (_generate_svg_from_pattern_spec ext spec sd body pn wt vi wp).
Proof.
  unfold _generate_svg_from_pattern_spec, load_pattern_spec.
  apply returns_try.
  - apply returns_bind. intros _. apply returns_bind. intros folder.
    apply returns_bind. intros _. apply returns_ret. by exists pn.
  - intros e. destruct (spec !! "design"); [apply design_params_returns|apply returns_raise].
Qed.

Lemma generate_svg_returns ext self odesign ospec sid bp wt vi wp :
  returns (named_after wp)
    (GarmentSVGService_generate_svg ext self odesign ospec sid bp wt vi wp).
Proof.
  unfold GarmentSVGService_generate_svg.
  destruct (bool_decide _ && bool_decide _); [apply returns_raise|].
  apply returns_bind. intros _. apply returns_bind. intros body.
  destruct ospec; [apply pattern_spec_returns|apply design_params_returns].
Qed.

(** X8: whatever [generate_svg] returns, the SVG and the PNG file are
    [<stem>_pattern.svg] and [<stem>_pattern.png] in the pattern folder
    returned, for one stem, and the PDF is [<stem>_print_pattern.pdf] in the
    same folder when a printable was asked for and [None] when it was not.
    The responses of the two SVG endpoints have the same form;
    [generate_pattern_svg] always answers with a printable. *)
Theorem svg_artifacts_named_after_one_stem
    (ext : Collaborators) (self : GarmentSVGService) (mean_all : BodyParameters)
    (odesign ospec : option dict) (sid : string) (bp : option dict) (wt vi wp : bool)
    (request : api_garment_3d_service.GenerateSVGRequest)
    (raw_request : api_garment_3d_service.Generate3DRequest) :
  returns (named_after wp)
    (GarmentSVGService_generate_svg ext self odesign ospec sid bp wt vi wp) ∧
  returns (λ resp, named_after (api_garment_3d_service.with_printable request)
                     (response_files resp))
    (api_garment_3d_service.generate_svg ext mean_all request) ∧
  returns (λ resp, named_after true (response_files resp))
    (api_garment_3d_service.generate_pattern_svg ext mean_all raw_request).
Proof.
  split; [apply generate_svg_returns|]. split.
  - unfold api_garment_3d_service.generate_svg.
    apply returns_try; [|intros e; apply returns_raise].
    destruct (negb _ && negb _); [apply returns_raise|].
    apply returns_bind. intros session. intros w a w'. unfold bind.
    destruct (GarmentSVGService_generate_svg _ _ _ _ _ _ _ _ _ w)
      as [[[[[folder svg] png] pdf]|e] w1] eqn:E; [|done].
    intros [= <- _]. apply (generate_svg_returns _ _ _ _ _ _ _ _ _ _ _ _ E).
  - unfold api_garment_3d_service.generate_pattern_svg.
    apply returns_try; [|intros e; apply returns_raise].
    apply returns_bind. intros session. intros w a w'. unfold bind.
    destruct (GarmentSVGService_generate_svg _ _ _ _ _ _ _ _ _ w)
      as [[[[[folder svg] png] pdf]|e] w1] eqn:E; [|done].
    intros [= <- _]. apply (generate_svg_returns _ _ _ _ _ _ _ _ _ _ _ _ E).
Qed.

Lemma svg_artifacts_named_after_one_stem_witness :
  let sd := Path "./tmp_svg_service" /: "s1" in
  let folder := sd /: "user_pattern_svg" in
  named_after false
    (folder, folder /: "user_pattern_svg_pattern.svg",
     folder /: "user_pattern_svg_pattern.png", None).
Proof.
  intros sd folder.
  destruct (svg_artifacts_named_after_one_stem Demo.ext Demo.svg_service Demo.mean_all
              (Some Demo.shirt) (Some Demo.spec_bare) "s1" None true true false
              (api_garment_3d_service.MkGenerateSVGRequest None None None true true false)
              (api_garment_3d_service.MkGenerate3DRequest ∅ None)) as [H _].
  apply (H Demo.world0 _
           (GarmentSVGService_generate_svg Demo.ext Demo.svg_service (Some Demo.shirt)
              (Some Demo.spec_bare) "s1" None true true false Demo.world0).2).
  vm_compute. reflexivity.
Defined.

(** ** Gathering the renders *)

Lemma tree_grows_refl t : tree_grows t t.
Proof. by intros k. Qed.

Lemma tree_grows_trans t1 t2 t3 : tree_grows t1 t2 → tree_grows t2 t3 → tree_grows t1 t3.
Proof.
  intros H12 H23 k. destruct (H12 k) as [A1 B1], (H23 k) as [A2 B2]. split; auto.
Qed.

Lemma tree_grows_insert t r n :
  r ≠ [] → node_at t r ≠ Some Dir → tree_grows t (<[r := n]> t).
Proof.
  intros Hne Hd k. destruct (decide (r = k)) as [<-|Hk].
  - rewrite lookup_insert_eq. split; [|by eauto].
    intros H. destruct r; [done|]. simpl in Hd. done.
  - by rewrite lookup_insert_ne.
Qed.

Lemma is_dir_grows t t' k : tree_grows t t' → is_dir t k = true → is_dir t' k = true.
Proof.
  intros H. unfold is_dir. destruct k as [|x k]; [done|]. simpl.
  destruct (t !! (x :: k)) as [[|?]|] eqn:E; try done.
  by rewrite (proj1 (H _) E).
Qed.

Lemma walk_grows t t' cs : ∀ cur r,
  tree_grows t t' → walk t cur cs = Some r → walk t' cur cs = Some r.
Proof.
  induction cs as [|c cs IH]; intros cur r H; simpl; [done|].
  destruct (is_dir t cur) eqn:D; [|done]. rewrite (is_dir_grows _ _ _ H D).
  destruct (String.eqb c ".."); by apply IH.
Qed.

Lemma write_file_grows c t p x r t' :
  write_file c t p x = (r, t') → tree_grows t t'.
Proof.
  unfold write_file. destruct (resolve c t p) as [k|]; [|intros [= _ <-]; apply tree_grows_refl].
  destruct (node_at t k) as [[|y]|] eqn:N; intros [= _ <-];
    try apply tree_grows_refl; apply tree_grows_insert;
    try (rewrite N; done); by intros ->.
Qed.

Lemma mkdir_exist_ok_grows c t p r t' :
  mkdir_exist_ok c t p = (r, t') → tree_grows t t'.
Proof.
  unfold mkdir_exist_ok. destruct (resolve c t p) as [k|]; [|intros [= _ <-]; apply tree_grows_refl].
  destruct (node_at t k) as [[|y]|] eqn:N; intros [= _ <-];
    try apply tree_grows_refl; apply tree_grows_insert;
    try (rewrite N; done); by intros ->.
Qed.

Lemma copy_grows c t src dst r t' :
  copy c t src dst = (r, t') → tree_grows t t'.
Proof.
  unfold copy. destruct (same_file _ _ _ _); [intros [= _ <-]; apply tree_grows_refl|].
  destruct (read_file c t src); [apply write_file_grows|intros [= _ <-]; apply tree_grows_refl].
Qed.

Lemma copy_step_grows file renders w :
  let w' := (except_SameFileError (on_fs (λ c t, copy c t file renders)) w).2 in
  tree_grows (fs w) (fs w') ∧ cwd w' = cwd w.
Proof.
  simpl. unfold except_SameFileError, on_fs.
  destruct (copy (cwd w) (fs w) file renders) as [r t'] eqn:E.
  apply copy_grows in E. destruct r as [u|e]; [done|]. by destruct e.
Qed.

Lemma for_each_copy_grows files renders : ∀ w,
  let w' := (for_each files
               (λ file, except_SameFileError (on_fs (λ c t, copy c t file renders))) w).2 in
  tree_grows (fs w) (fs w') ∧ cwd w' = cwd w.
Proof.
  induction files as [|q files IH]; intros w; simpl; [split; [apply tree_grows_refl|done]|].
  unfold bind. pose proof (copy_step_grows q renders w) as [G C]. simpl in G, C.
  destruct (except_SameFileError _ w) as [[u|e] w1]; simpl in *; [|done].
  destruct (IH w1) as [G' C']. split; [by eapply tree_grows_trans|congruence].
Qed.

(** X9: [gather_renders] only adds to the file system: every entry that was
    there is still there, every directory is still a directory, and no
    collaborator is called; this holds also when it raises half way. *)
Theorem gather_renders_keeps_entries (out_data_path : PurePath) (w : World) :
  let w' := (gather_renders out_data_path w).2 in
  tree_grows (fs w) (fs w') ∧ cwd w' = cwd w ∧ calls w' = calls w.
Proof.
  simpl. split; [|split].
  - unfold gather_renders, bind at 1, on_fs at 1.
    destruct (mkdir_exist_ok _ _ _) as [[u|e] t1] eqn:E; simpl;
      [|by apply mkdir_exist_ok_grows in E].
    apply mkdir_exist_ok_grows in E. unfold bind, rglob_. simpl.
    eapply tree_grows_trans; [exact E|].
    apply (for_each_copy_grows _ _ (set_fs w t1)).
  - unfold gather_renders, bind at 1, on_fs at 1.
    destruct (mkdir_exist_ok _ _ _) as [[u|e] t1] eqn:E; simpl; [|done].
    unfold bind, rglob_. simpl.
    apply (for_each_copy_grows _ _ (set_fs w t1)).
  - apply emits_nothing, gather_renders_emits.
Qed.

Lemma node_at_snoc t (r : list string) x : node_at t (r ++ [x]) = t !! (r ++ [x]).
Proof. by destruct r. Qed.

Lemma rglob_intro c t p pat r suffix :
  resolve c t p = Some r → is_dir t r = true → suffix ≠ [] →
  is_Some (t !! (r ++ suffix)) → pat (List.last (r ++ suffix) "") = true →
  MkPath (absolute p) (parts p ++ suffix) ∈ rglob c t p pat.
Proof.
  intros R D Hne [n Hn] Hpat. unfold rglob. rewrite R, D.
  apply list_elem_of_omap. exists (r ++ suffix, n). split.
  - by apply elem_of_map_to_list.
  - simpl. rewrite bool_decide_eq_true_2 by (by exists suffix).
    rewrite bool_decide_eq_false_2.
    + simpl. rewrite Hpat. by rewrite drop_app_length.
    + intros E. rewrite <- (app_nil_r r) in E at 2. by apply app_inv_head in E.
Qed.

(** What [rglob] finds is still found when the file system has grown. *)
Lemma rglob_grows c t t' p pat q :
  tree_grows t t' → q ∈ rglob c t p pat → q ∈ rglob c t' p pat.
Proof.
  intros G Hq. pose proof Hq as Hq'.
  apply rglob_elem in Hq' as (r & suffix & R & Hne & Hin & -> & Hpat).
  assert (is_dir t r = true) as D.
  { unfold rglob in Hq. rewrite R in Hq. destruct (is_dir t r); [done|].
    by apply elem_of_nil in Hq. }
  apply (rglob_intro _ _ _ _ r suffix).
  - by apply (walk_grows t).
  - by apply (is_dir_grows t).
  - done.
  - by apply (proj2 (G _)).
  - unfold name in Hpat. simpl in Hpat.
    rewrite last_app_nonempty in Hpat |- * by done. done.
Qed.

Lemma mkdir_exist_ok_post c t p t1 :
  mkdir_exist_ok c t p = (Ok (), t1) →
  ∃ rr, resolve c t1 p = Some rr ∧ node_at t1 rr = Some Dir.
Proof.
  intros H. pose proof (mkdir_exist_ok_grows _ _ _ _ _ H) as G.
  unfold mkdir_exist_ok in H.
  destruct (resolve c t p) as [k|] eqn:R; [|done].
  exists k. split; [by apply (walk_grows t)|].
  destruct (node_at t k) as [[|y]|] eqn:N; try done.
  - by injection H as <-.
  - injection H as <-. destruct k; [done|]. simpl. by rewrite lookup_insert_eq.
Qed.

Lemma copy_step_collects file renders rr w w1 :
  resolve (cwd w) (fs w) renders = Some rr →
  node_at (fs w) rr = Some Dir →
  plain_name (name file) = true →
  except_SameFileError (on_fs (λ c t, copy c t file renders)) w = (Ok (), w1) →
  is_Some (fs w1 !! (rr ++ [name file])).
Proof.
  intros R D Hp. unfold except_SameFileError, on_fs, copy.
  assert (is_dir (fs w) rr = true) as D' by (unfold is_dir; by rewrite D).
  rewrite R. cbv zeta. rewrite !D'.
  assert (resolve (cwd w) (fs w) (renders /: name file) = Some (rr ++ [name file])) as Rd.
  { by rewrite (resolve_join_plain _ _ _ _ Hp), R, D'. }
  destruct (same_file _ _ _ _) eqn:S.
  - intros [= <-]. simpl. unfold same_file in S. rewrite Rd in S.
    destruct (resolve (cwd w) (fs w) file) as [r|]; [|done].
    apply andb_true_iff in S as [S1 S2].
    apply bool_decide_eq_true in S1 as ->. apply bool_decide_eq_true in S2.
    by rewrite node_at_snoc in S2.
  - destruct (read_file _ _ file) as [x|e] eqn:Rf.
    + unfold write_file. rewrite Rd.
      destruct (node_at (fs w) (rr ++ [name file])) as [[|y]|];
        intros [= <-]; simpl; by rewrite lookup_insert_eq.
    + unfold read_file in Rf.
      destruct (resolve (cwd w) (fs w) file) as [k|];
        [destruct (node_at (fs w) k) as [[|y]|]|];
        first [done | by injection Rf as <-].
Qed.

Lemma for_each_copy_collects renders rr files : ∀ w w',
  resolve (cwd w) (fs w) renders = Some rr →
  node_at (fs w) rr = Some Dir →
  for_each files
    (λ file, except_SameFileError (on_fs (λ c t, copy c t file renders))) w = (Ok (), w') →
  ∀ q, q ∈ files → plain_name (name q) = true → is_Some (fs w' !! (rr ++ [name q])).
Proof.
  induction files as [|f files IH]; intros w w' R D H q Hq Hp;
    [by apply elem_of_nil in Hq|].
  simpl in H. unfold bind in H.
  pose proof (copy_step_grows f renders w) as [G C]. simpl in G, C.
  destruct (except_SameFileError _ w) as [[u|e] w1] eqn:E; [|done].
  simpl in *.
  assert (resolve (cwd w1) (fs w1) renders = Some rr) as R1
    by (unfold resolve in *; rewrite C; by apply (walk_grows (fs w))).
  assert (node_at (fs w1) rr = Some Dir) as D1.
  { destruct rr; [done|]. simpl in *. by apply (proj1 (G _)). }
  apply elem_of_cons in Hq as [->|Hq].
  - destruct u. pose proof (copy_step_collects _ _ _ _ _ R D Hp E) as Hin.
    pose proof (for_each_copy_grows files renders w1) as [G' _]. simpl in G'.
    rewrite H in G'. by apply (proj2 (G' _)).
  - by apply (IH w1 w' R1 D1 H).
Qed.

(** X10: when [gather_renders] returns, [renders] is a directory of the
    output folder and, for every entry below the output folder whose name
    matches [*render*.png] (the name being an ordinary file name), an entry of
    that name is in [renders]. *)
Theorem gather_renders_collects (out_data_path : PurePath) (w w' : World) :
  gather_renders out_data_path w = (Ok (), w') →
  ∃ rr,
    resolve (cwd w') (fs w') (out_data_path /: "renders") = Some rr ∧
    node_at (fs w') rr = Some Dir ∧
    ∀ q, q ∈ rglob (cwd w) (fs w) out_data_path match_render_png →
         plain_name (name q) = true →
         is_Some (fs w' !! (rr ++ [name q])).
Proof.
  intros H. unfold gather_renders in H.
  unfold bind at 1, on_fs at 1 in H.
  destruct (mkdir_exist_ok _ _ _) as [[[]|e] t1] eqn:E; [|done].
  pose proof (mkdir_exist_ok_grows _ _ _ _ _ E) as G1.
  apply mkdir_exist_ok_post in E as (rr & R & D).
  unfold bind at 1, rglob_ at 1 in H. cbn [fs cwd set_fs] in H.
  pose proof (for_each_copy_grows
                (rglob (cwd w) t1 out_data_path match_render_png)
                (out_data_path /: "renders") (set_fs w t1)) as [G2 C2].
  simpl in G2, C2. rewrite H in G2, C2. simpl in G2, C2.
  exists rr. split; [|split].
  - unfold resolve in *. rewrite C2. by apply (walk_grows t1).
  - destruct rr; [done|]. simpl in *. by apply (proj1 (G2 _)).
  - intros q Hq Hp.
    apply (for_each_copy_collects _ rr _ (set_fs w t1) w' R D H); [|done].
    by apply (rglob_grows _ (fs w)).
Qed.

Lemma gather_renders_collects_witness :
  let w' := (gather_renders (Path "/out") Demo.render_world).2 in
  is_Some (fs w' !! ["out"; "renders"; "g1_render_front.png"]) ∧
  is_Some (fs w' !! ["out"; "renders"; "g2_render_back.png"]) ∧
  fs w' !! ["out"; "renders"; "g1_sim.obj"] = None.
Proof.
  intros w'.
  destruct (gather_renders_collects (Path "/out") Demo.render_world w')
    as (rr & R & _ & Hall); [vm_compute; reflexivity|].
  assert (rr = ["out"; "renders"]) as -> by (vm_compute in R; congruence).
  split; [|split].
  - apply (Hall (Path "/out/g1/g1_render_front.png")); [|vm_compute; reflexivity].
    vm_compute. repeat constructor.
  - apply (Hall (Path "/out/g2/g2_render_back.png")); [|vm_compute; reflexivity].
    vm_compute. repeat constructor.
  - vm_compute. reflexivity.
Defined.

(** ** A run that is resumed, and a run that exits *)

Lemma walk_start_dir t cs cur r :
  walk t cur cs = Some r → is_dir t r = true → is_dir t cur = true.
Proof.
  destruct cs as [|c cs]; simpl; [by intros [= ->]|].
  by destruct (is_dir t cur).
Qed.

Lemma mkdir_walk_present t cs : ∀ cur r,
  walk t cur cs = Some r → is_dir t r = true → mkdir_walk t cur cs = Some (r, t).
Proof.
  induction cs as [|c cs IH]; intros cur r H D; simpl in *; [by injection H as ->|].
  destruct (is_dir t cur); [|done].
  destruct (String.eqb c ".."); [by apply IH|].
  pose proof (walk_start_dir _ _ _ _ H D) as D1. unfold is_dir in D1.
  destruct (node_at t (cur ++ [c])) as [[|y]|]; try done. by apply IH.
Qed.

(** Where an entry of [p] exists, [p] is a directory already and
    [p.mkdir(parents=True, exist_ok=True)] has nothing to create. *)
Lemma mkdir_parents_present c t p s :
  plain_name s = true → path_exists c t (p /: s) = true →
  mkdir_parents c t p = (Ok (), t).
Proof.
  intros Hp. unfold path_exists. rewrite (resolve_join_plain _ _ _ _ Hp).
  unfold resolve, mkdir_parents.
  destruct (walk t _ (parts p)) as [r|] eqn:W; [|done].
  destruct (is_dir t r) eqn:D; [|done]. intros _.
  by rewrite (mkdir_walk_present _ _ _ _ W D).
Qed.

Lemma Properties_world f w r w' : Properties f w = (r, w') → w' = w.
Proof. unfold Properties. repeat case_match; by intros [= _ <-]. Qed.

Lemma bind_lift_Raise {A B} (e : exn) (k : A → M B) w :
  bind (lift (Raise e)) k w = (Raise e, w).
Proof. reflexivity. Qed.

Lemma set_fs_same w : set_fs w (fs w) = w.
Proof. by destruct w. Qed.

(** X11: a run that is resumed starts from the run state it left: when the
    run-state file of the dataset and body type is there already, the setup
    of the batch driver changes nothing, neither a file nor a directory; in
    particular it does not copy the dataset's initial properties over it. *)
Theorem resumed_run_keeps_world (command_args : CommandArgs) (w w1 : World) (s : Setup) :
  main_setup command_args w = (Ok s, w1) →
  path_exists (cwd w) (fs w) (dataset_file s) = true →
  w1 = w.
Proof.
  intros H Hex. unfold main_setup in H.
  unfold bind at 1 in H.
  destruct (Properties _ w) as [[sc|e] w0] eqn:E0; [|done].
  apply Properties_world in E0 as ->.
  destruct (getitem sc "datasets_path") as [v1|e];
    [|by rewrite bind_lift_Raise in H]. rewrite bind_lift_Ok in H.
  destruct (Path_of v1) as [dp|e]; [|by rewrite bind_lift_Raise in H].
  rewrite bind_lift_Ok in H.
  destruct (join_opt dp (data command_args)) as [dpd|e];
    [|by rewrite bind_lift_Raise in H]. rewrite bind_lift_Ok in H.
  destruct (getitem sc "datasets_sim") as [v2|e];
    [|by rewrite bind_lift_Raise in H]. rewrite bind_lift_Ok in H.
  destruct (Path_of v2) as [ds|e]; [|by rewrite bind_lift_Raise in H].
  rewrite bind_lift_Ok in H.
  destruct (join_opt ds (data command_args)) as [op|e];
    [|by rewrite bind_lift_Raise in H]. rewrite bind_lift_Ok in H.
  match type of H with context [exists_ ?df] =>
    destruct (path_exists (cwd w) (fs w) df) eqn:Hpe
  end.
  - unfold bind at 1, on_fs at 1 in H.
    pose proof (λ Hp, mkdir_parents_present _ _ _ _ Hp Hpe) as Hmk.
    rewrite Hmk, set_fs_same in H by (by destruct (default_body command_args)).
    unfold bind at 1, exists_ at 1 in H. rewrite Hpe in H.
    unfold bind at 1, ret at 1 in H. unfold bind at 1 in H.
    destruct (Properties _ w) as [[p|e] w0] eqn:E1; [|done].
    apply Properties_world in E1 as ->. by injection H as _ <-.
  - repeat match type of H with
           | bind ?m ?k ?w0 = _ =>
               unfold bind at 1 in H; destruct (m w0) as [[?|?] ?] eqn:?; [|discriminate H]
           end.
    unfold ret in H. injection H as <- <-. simpl in Hex. congruence.
Qed.

Lemma resumed_run_keeps_world_witness :
  let w := (main_setup Demo.args (Demo.batch_world Demo.run_state_fresh)).2 in
  (main_setup Demo.args w).2 = w.
Proof.
  intros w.
  apply (resumed_run_keeps_world Demo.args w _ (Demo.setup_of Demo.run_state_fresh));
    vm_compute; reflexivity.
Defined.

Lemma finish_exit bx s (f : bool) p w code w' :
  collaborators_raise (λ e, is_Exception e = true) bx →
  finish bx s f p w = (Raise (SystemExit code), w') →
  ∃ p3 wa,
    calls w' = calls w ++ [CallAddSysInfo p; CallSerialize p3 (dataset_file s)] ∧
    (∃ c t t', add_sys_info bx p c t = (Ok p3, t')) ∧
    gather_renders (output_path s) wa = (Ok (), w').
Proof.
  intros (_ & _ & _ & _ & Hinfo & Hser) H. unfold finish in H.
  unfold bind at 1, call at 1, call_log at 1 in H.
  destruct (add_sys_info bx _ _ _) as [[p3|e] t] eqn:E; simpl in H.
  - unfold bind at 1, call at 1, call_log at 1 in H; simpl in H.
    destruct (serialize bx _ _ _ _) as [[u|e] t'] eqn:Es; simpl in H.
    + unfold bind at 1 in H.
      match type of H with context [gather_renders ?q ?w1] =>
        pose proof (emits_nothing (gather_renders q) w1 (gather_renders_emits _ q)) as Hc;
        pose proof (gather_renders_exn q w1) as Hx;
        destruct (gather_renders q w1) as [[[]|e] w2] eqn:Eg
      end; simpl in *.
      * exists p3. eexists. split; [|split; [eauto|]].
        -- destruct f; injection H as _ <-; rewrite Hc, <- app_assoc; done.
        -- destruct f; injection H as _ <-; exact Eg.
      * injection H as -> <-. by specialize (Hx _ _ eq_refl).
    + injection H as -> <-. by specialize (Hser _ _ _ _ _ _ Es).
  - injection H as -> <-. by specialize (Hinfo _ _ _ _ _ E).
Qed.

(** X12: a run of the batch driver that was not skipped exits (with
    [sys.exit]) only after it has persisted the run state and gathered the
    renders: its last two calls are [add_sys_info] and the [serialize] of
    what that returned to the run-state file, and at the exit [renders] is a
    directory of the output folder.  (The collaborators raise exceptions
    only.) *)
Theorem run_exits_after_persisting
    (bx : BatchCollaborators) (command_args : CommandArgs) (w w1 w2 : World)
    (s : Setup) (code : Z) :
  collaborators_raise (λ e, is_Exception e = true) bx →
  main_setup command_args w = (Ok s, w1) →
  is_frozen (props s) = false →
  main bx command_args w = (Raise (SystemExit code), w2) →
  (∃ pre p p3,
     calls_since w w2 = pre ++ [CallAddSysInfo p; CallSerialize p3 (dataset_file s)] ∧
     ∃ c t t', add_sys_info bx p c t = (Ok p3, t')) ∧
  ∃ rr, resolve (cwd w2) (fs w2) (output_path s /: "renders") = Some rr ∧
        node_at (fs w2) rr = Some Dir.
Proof.
  intros Hbx Hs Hf H.
  pose proof (emits_nothing (main_setup command_args) w
                (main_setup_emits _ command_args)) as Hc0.
  rewrite Hs in Hc0. simpl in Hc0.
  unfold main, bind in H. rewrite Hs in H. unfold main_run in H. rewrite Hf in H.
  unfold bind at 1 in H.
  destruct (define_sim_props_phase bx _ (λ e He, He) Hbx command_args s w1)
    as (n1 & E1 & _ & Q1).
  destruct (define_sim_props bx command_args s w1) as [[p1|e] wa]; simpl in *;
    [|injection H as -> _; by specialize (Q1 _ eq_refl)].
  unfold bind at 1 in H.
  destruct (main_loop_phase bx _ Hbx command_args s p1 wa) as (n2 & E2 & T2).
  destruct (main_loop bx command_args s p1 wa) as [[[f p2]|e] wb]; simpl in *;
    [|injection H as -> _; by destruct T2].
  unfold bind at 1 in H.
  destruct (try_resim_fails_once_phase bx _ (λ _, True) Hbx
              (λ _ _ _ _ _ _ _ _ _ _ _ _, I) command_args s f p2 wb) as (n3 & E3 & T3).
  destruct (try_resim_fails_once bx command_args s f p2 wb) as [[[f3 p3]|e] wc];
    simpl in *.
  - apply (finish_exit _ _ _ _ _ _ _ Hbx) in H as (p4 & wd & E4 & Ha & Hg).
    split.
    + exists (n1 ++ n2 ++ n3), p3, p4. split; [|done].
      apply calls_since_app. rewrite E4, E3, E2, E1, Hc0, <- !app_assoc. done.
    + destruct (gather_renders_collects _ _ _ Hg) as (rr & R & D & _). eauto.
  - injection H as -> _. destruct f; [by destruct T3|]. by destruct T3.
Qed.

Lemma run_exits_after_persisting_witness :
  let w := Demo.batch_world Demo.run_state_fresh in
  let w2 := (main Demo.bx Demo.args w).2 in
  ∃ rr, resolve (cwd w2) (fs w2) (Path "/sim" /: "shirts" /: "random_body" /: "renders")
        = Some rr ∧ node_at (fs w2) rr = Some Dir.
Proof.
  intros w w2.
  apply (run_exits_after_persisting Demo.bx Demo.args w (main_setup Demo.args w).2 w2
           (Demo.setup_of Demo.run_state_fresh) 0 demo_collaborators_raise);
    vm_compute; reflexivity.
Defined.

(** X13: without [--data] the batch driver fails before it creates anything:
    it ends with an exception, so with exit status 1, and leaves the file
    system and the trace of calls as they were. *)
Theorem main_without_data_fails
    (bx : BatchCollaborators) (command_args : CommandArgs) (w : World) :
  data command_args = None →
  let out := main bx command_args w in
  (∃ e, out.1 = Raise e ∧ is_Exception e = true) ∧
  exit_status out.1 = 1 ∧
  out.2 = w.
Proof.
  intros Hd. simpl.
  assert (∃ e, main_setup command_args w = (Raise e, w) ∧ is_Exception e = true)
    as (e & Hs & He).
  { unfold main_setup. rewrite Hd. unfold bind at 1.
    pose proof (raises_exceptions_Properties (Path "./system.json") w) as Hx.
    destruct (Properties _ w) as [[sc|e] w0] eqn:E0.
    - apply Properties_world in E0 as ->.
      destruct (getitem sc "datasets_path") as [v1|e] eqn:Eg;
        [|rewrite bind_lift_Raise; eexists; split; [done|]; by eapply getitem_exn].
      rewrite bind_lift_Ok.
      destruct (Path_of v1) as [dp|e] eqn:Ep;
        [|rewrite bind_lift_Raise; eexists; split; [done|]; by eapply Path_of_exn].
      rewrite bind_lift_Ok. simpl. rewrite bind_lift_Raise. by eexists.
    - pose proof (Properties_world _ _ _ _ E0) as ->. exists e. split; [done|].
      by eapply Hx. }
  unfold main, bind. rewrite Hs. simpl.
  split; [by exists e|]. split; [|done]. by destruct e.
Qed.

Lemma main_without_data_fails_witness :
  let w := Demo.batch_world Demo.run_state_fresh in
  let out := main Demo.bx (MkArgs None None None false false false) w in
  exit_status out.1 = 1 ∧ out.2 = w.
Proof.
  intros w out.
  by apply (main_without_data_fails Demo.bx (MkArgs None None None false false false) w).
Defined.

(** ** The 3D endpoint of api_garment_3d_service.py *)

(** With the keywords of its parameters, the keyword call is the call. *)
Lemma generate_3d_by_keyword_bound ext self design_params session_id body_params :
  GarmentTo3DService_generate_3d_by_keyword ext self
    [ ("design_params", PDict design_params); ("session_id", PStr session_id);
      ("body_params", opt_val body_params) ]
  = GarmentTo3DService_generate_3d ext self design_params session_id body_params.
Proof.
  unfold GarmentTo3DService_generate_3d_by_keyword. cbn [bind_keywords List.filter map fst snd existsb].
  destruct body_params; reflexivity.
Qed.

(** X14: [POST /generate3d] of api_garment_3d_service.py fails for every
    request.  It hands the specification to [GarmentTo3DService.generate_3d]
    under the keyword [pattern_specification], which that method does not
    have: the [TypeError] is answered with status 500.  A session token is
    drawn, but no session directory is created and no collaborator is
    called. *)
Theorem api_generate_3d_always_fails
    (ext : Collaborators) (mean_all : BodyParameters) (gui_sim_props : dict)
    (request : api_garment_3d_service.Generate3DRequest) (w : World) :
  let out := api_garment_3d_service.generate_3d ext mean_all gui_sim_props request w in
  (∃ msg, out.1 = Raise (HTTPException 500
                           (detail_with_traceback "Error in 3D generation: "
                              (TypeError msg)))) ∧
  fs out.2 = fs w ∧ cwd out.2 = cwd w ∧ calls out.2 = calls w ∧
  uuids out.2 = S (uuids w).
Proof.
  simpl. split; [eexists; reflexivity|]. repeat split.
Qed.

(** ** The body profile of a request *)




Section BodyProfile.

Variable ext : Collaborators.






End BodyProfile.



